(** * PersonaApp: the persona form and its two calls to the persona service

    A shallow embedding of [persona-frontend/src/PersonaApp.tsx] (the second
    copy of the component differs only in markup and in the declared type of
    the persona payload; its two handlers are the same text).

    The component is a React function component with six [useState] hooks,
    two [async] click handlers and a render function.  An [async] handler runs
    synchronously up to its [await], is suspended while the request is in
    flight, and is resumed when the promise settles.  The embedding therefore
    splits every handler in two: the part before the [await] and the part
    after it, and runs them as steps of an event-driven transition system
    whose events are what the browser delivers: keystrokes, clicks, and the
    settling of a request.

    The component is read twice.

    - The typed reading follows the TypeScript declarations and the HTTP
      contract: a 2xx body is a [PersonaResponse], an id is a safe integer,
      and the name can be encoded.  The properties of single executions of
      the two handlers are stated on it.
    - [Module Untyped] follows what the JavaScript does with whatever
      arrives: any JSON value as a body (the declarations are erased at run
      time), any value as an id, and names on which [encodeURIComponent]
      throws.  The properties of the component as a whole (its state
      machine, its loading flag, the requests it issues) are stated on it.
    - The two agree, event for event, on every run within the contract
      ([typed_reading_is_run_time_behaviour]).

    A JavaScript string is represented by the bytes of its UTF-8 encoding
    ([string]), a lone surrogate by the three bytes that encoding scheme
    gives its code point. *)

From Stdlib Require Import ZArith NArith String Ascii List Bool Lia DecimalString.
From Stdlib Require DecimalZ DecimalPos.
Import ListNotations.
Open Scope string_scope.

(** ** Data model *)

(** The persona payload is only stored and pretty-printed, never inspected:
    a generic JSON value. *)
#[local] Set Warnings "-register-all".
Inductive JSON : Type :=
| JNull
| JBool (b : bool)
| JNumber (n : Z)
| JString (s : string)
| JArray (items : list JSON)
| JObject (members : list (string * JSON)).
#[local] Set Warnings "register-all".

(** [interface PersonaResponse { id: number; persona: PersonaData }] *)
Module PersonaResponse.
Record t : Type := mk { id : Z; persona : JSON }.
End PersonaResponse.

(** [api.post(url, { text })]: every request of the component is a POST whose
    body is an object with the single member [text]; [url] is relative to the
    [baseURL] of the axios instance. *)
Record Request : Type := post { url : string; text : string }.

(** What the network hands back to axios for one request, in the typed
    reading: a body has the declared shape ([Untyped.Reply] carries any
    value). *)
Inductive Reply : Type :=
| NetworkError
| Status (code : Z) (data : PersonaResponse.t).

(** axios's default [validateStatus]: [status >= 200 && status < 300]. *)
Definition validateStatus (code : Z) : bool :=
  (200 <=? code)%Z && (code <? 300)%Z.

(** How the awaited promise settles: fulfilled with [response.data], or
    rejected with an error that carries the reply. *)
Inductive Settled : Type :=
| Fulfilled (data : PersonaResponse.t)
| Rejected (err : Reply).

Definition settle (r : Reply) : Settled :=
  match r with
  | NetworkError => Rejected r
  | Status code data => if validateStatus code then Fulfilled data else Rejected r
  end.

(** The handler that is suspended on a request. *)
Inductive Handler : Type := AwaitGenerate | AwaitAdd.

Record Pending : Type := pending { awaiting : Handler; request : Request }.

(** What the component does to, and receives from, the outside. *)
Inductive Obs : Type :=
| Post (req : Request)
| Response (p : Pending) (r : Reply)
| Alert (msg : string)
| ConsoleError (err : Reply).

(** The six [useState] cells. *)
Record Hooks : Type := mkHooks {
  name : string;
  sample : string;
  persona : option PersonaResponse.t;
  loading : bool;
  personaId : option Z;
  newSample : string
}.

(** The component instance in its environment: its state, the requests that
    are in flight (oldest first) and the chronological trace of what it did
    and received. *)
Record World : Type := mkWorld {
  hooks : Hooks;
  inflight : list Pending;
  trace : list Obs
}.

(** The initial values passed to [useState]. *)
Definition initialHooks : Hooks :=
  mkHooks "" "" None false None "".

Definition init : World := mkWorld initialHooks [] [].

(** ** State setters *)

Definition setName (v : string) (h : Hooks) : Hooks :=
  mkHooks v (sample h) (persona h) (loading h) (personaId h) (newSample h).

Definition setSample (v : string) (h : Hooks) : Hooks :=
  mkHooks (name h) v (persona h) (loading h) (personaId h) (newSample h).

Definition setPersona (v : option PersonaResponse.t) (h : Hooks) : Hooks :=
  mkHooks (name h) (sample h) v (loading h) (personaId h) (newSample h).

Definition setLoading (v : bool) (h : Hooks) : Hooks :=
  mkHooks (name h) (sample h) (persona h) v (personaId h) (newSample h).

Definition setPersonaId (v : option Z) (h : Hooks) : Hooks :=
  mkHooks (name h) (sample h) (persona h) (loading h) v (newSample h).

Definition setNewSample (v : string) (h : Hooks) : Hooks :=
  mkHooks (name h) (sample h) (persona h) (loading h) (personaId h) v.

(** ** JavaScript primitives the handlers use *)

(** Truthiness of a string: only the empty string is falsy. *)
Definition truthyString (s : string) : bool :=
  match s with EmptyString => false | String _ _ => true end.

(** Truthiness of [number | null]: [null] and [0] are falsy. *)
Definition truthyId (v : option Z) : bool :=
  match v with
  | None => false
  | Some i => negb (i =? 0)%Z
  end.

(** Truthiness of [PersonaResponse | null]: an object is truthy. *)
Definition truthyPersona (v : option PersonaResponse.t) : bool :=
  match v with None => false | Some _ => true end.

(** A safe integer inside a template literal: its decimal digits.  Outside
    the safe range a number prints otherwise; [Untyped] takes a number by
    the string it prints as. *)
Definition numberToString (i : Z) : string :=
  NilZero.string_of_int (Z.to_int i).

(** [number | null] inside a template literal. *)
Definition idToString (v : option Z) : string :=
  match v with
  | None => "null"
  | Some i => numberToString i
  end.

(** The characters [encodeURIComponent] leaves alone:
    [A-Z a-z 0-9 - _ . ! ~ * ' ( )]. *)
Definition uriUnescaped (c : ascii) : bool :=
  let n := N_of_ascii c in
  ((65 <=? n) && (n <=? 90) || (97 <=? n) && (n <=? 122) ||
   (48 <=? n) && (n <=? 57) ||
   (n =? 45) || (n =? 95) || (n =? 46) || (n =? 33) || (n =? 126) ||
   (n =? 42) || (n =? 39) || (n =? 40) || (n =? 41))%N.

(** One upper-case hexadecimal digit. *)
Definition hexDigit (d : N) : ascii :=
  if (d <? 10)%N then ascii_of_N (48 + d) else ascii_of_N (55 + d).

(** [encodeURIComponent] on a string it accepts: every byte of the UTF-8
    encoding that is not unescaped becomes [%XX].  On a string with a lone
    surrogate the builtin throws instead: see [tryEncodeURIComponent]. *)
Fixpoint encodeURIComponent (s : string) : string :=
  match s with
  | EmptyString => EmptyString
  | String c rest =>
      if uriUnescaped c then String c (encodeURIComponent rest)
      else
        let n := N_of_ascii c in
        String "%" (String (hexDigit (n / 16)) (String (hexDigit (n mod 16))
          (encodeURIComponent rest)))
  end.

(** The value of a hexadecimal digit, and percent-decoding: the inverse
    against which the encoding is checked. *)
Definition hexValue (c : ascii) : option N :=
  let n := N_of_ascii c in
  if ((48 <=? n) && (n <=? 57))%N then Some (n - 48)%N
  else if ((65 <=? n) && (n <=? 70))%N then Some (n - 55)%N
  else None.

Fixpoint percentDecode (s : string) : option string :=
  match s with
  | EmptyString => Some EmptyString
  | String c rest =>
      if (N_of_ascii c =? 37)%N then
        match rest with
        | String h (String l rest') =>
            match hexValue h, hexValue l, percentDecode rest' with
            | Some hi, Some lo, Some out =>
                Some (String (ascii_of_N (16 * hi + lo)) out)
            | _, _, _ => None
            end
        | _ => None
        end
      else
        match percentDecode rest with
        | Some out => Some (String c out)
        | None => None
        end
  end.

(** A query component needs no further quoting when it is made of unescaped
    characters and [%]. *)
Definition querySafe (c : ascii) : bool :=
  uriUnescaped c || (N_of_ascii c =? 37)%N.

Fixpoint allChars (p : ascii -> bool) (s : string) : bool :=
  match s with
  | EmptyString => true
  | String c rest => p c && allChars p rest
  end.

(** ** The handlers *)

(** [generatePersona], up to its [await]: [setLoading(true)], then the POST
    is issued with the [name] and [sample] of the render the handler closes
    over, and the handler is suspended. *)
Definition generatePersona (w : World) : World :=
  let h := hooks w in
  let req := post ("/persona/?name=" ++ encodeURIComponent (name h)) (sample h) in
  mkWorld (setLoading true h)
          (inflight w ++ [pending AwaitGenerate req])
          (trace w ++ [Post req]).

(** [generatePersona], from its [await] on: the [try] body on fulfilment,
    the [catch] block on rejection, the [finally] block in both cases.  On a
    body of the declared shape neither statement of the [try] body throws
    ([Untyped.generatePersonaResumed] covers the bodies on which reading
    [id] does). *)
Definition generatePersonaResumed (r : Reply) (w : World) : World :=
  match settle r with
  | Fulfilled data =>
      mkWorld
        (setLoading false
           (setPersonaId (Some (PersonaResponse.id data))
              (setPersona (Some data) (hooks w))))
        (inflight w) (trace w)
  | Rejected err =>
      mkWorld (setLoading false (hooks w)) (inflight w)
              (trace w ++ [Alert "Error creating persona"; ConsoleError err])
  end.

(** [addToPersona], up to its [await]: [if (!personaId) return;] first, then
    as above with the [personaId] and [newSample] the handler closes over. *)
Definition addToPersona (w : World) : World :=
  let h := hooks w in
  if negb (truthyId (personaId h)) then w
  else
    let req := post ("/persona/" ++ idToString (personaId h) ++ "/add_sample")
                    (newSample h) in
    mkWorld (setLoading true h)
            (inflight w ++ [pending AwaitAdd req])
            (trace w ++ [Post req]).

(** [addToPersona], from its [await] on. *)
Definition addToPersonaResumed (r : Reply) (w : World) : World :=
  match settle r with
  | Fulfilled data =>
      mkWorld
        (setLoading false (setNewSample "" (setPersona (Some data) (hooks w))))
        (inflight w) (trace w)
  | Rejected err =>
      mkWorld (setLoading false (hooks w)) (inflight w)
              (trace w ++ [Alert "Error updating persona"; ConsoleError err])
  end.

Definition resume (h : Handler) : Reply -> World -> World :=
  match h with
  | AwaitGenerate => generatePersonaResumed
  | AwaitAdd => addToPersonaResumed
  end.

(** ** Rendering *)

(** The part of the rendered tree that decides which events can reach the
    handlers: the [disabled] attribute of the two buttons and the
    [persona && (...)] guard around the refinement section. *)
Record View : Type := mkView {
  generateDisabled : bool;
  refinementShown : bool;
  addDisabled : bool
}.

Definition render (h : Hooks) : View :=
  mkView (loading h || negb (truthyString (name h)) || negb (truthyString (sample h)))
         (truthyPersona (persona h))
         (loading h || negb (truthyString (newSample h))).

(** ** Events and steps *)

Inductive Event : Type :=
| ChangeName (v : string)
| ChangeSample (v : string)
| ChangeNewSample (v : string)
| ClickGenerate
| ClickAdd
| Settle (k : nat) (r : Reply).

Fixpoint removeAt {A : Type} (k : nat) (l : list A) {struct l} : list A :=
  match l, k with
  | [], _ => []
  | _ :: rest, O => rest
  | x :: rest, S k' => x :: removeAt k' rest
  end.

Definition withHooks (f : Hooks -> Hooks) (w : World) : World :=
  mkWorld (f (hooks w)) (inflight w) (trace w).

(** One event delivered to the component.  A click on a disabled or absent
    button, a keystroke in an absent textarea and the settling of a request
    that is not in flight do nothing. *)
Definition step (e : Event) (w : World) : World :=
  let v := render (hooks w) in
  match e with
  | ChangeName s => withHooks (setName s) w
  | ChangeSample s => withHooks (setSample s) w
  | ChangeNewSample s =>
      if refinementShown v then withHooks (setNewSample s) w else w
  | ClickGenerate =>
      if generateDisabled v then w else generatePersona w
  | ClickAdd =>
      if refinementShown v && negb (addDisabled v) then addToPersona w else w
  | Settle k r =>
      match nth_error (inflight w) k with
      | Some p =>
          resume (awaiting p) r
            (mkWorld (hooks w) (removeAt k (inflight w))
                     (trace w ++ [Response p r]))
      | None => w
      end
  end.

Definition run (evs : list Event) (w : World) : World :=
  fold_left (fun acc e => step e acc) evs w.

Definition isKeystroke (e : Event) : bool :=
  match e with
  | ChangeName _ | ChangeSample _ | ChangeNewSample _ => true
  | _ => false
  end.

(** A reply that makes the awaited call fail: a network error, or a status
    outside 2xx. *)
Definition failed (r : Reply) : bool :=
  match r with
  | NetworkError => true
  | Status code _ => negb (validateStatus code)
  end.

(** ** The interaction state machine *)

(** The four states the specification names. *)
Inductive Phase : Type := Empty | Generating | Ready | Refining.

(** The labels of the specification's transitions. *)
Inductive Label : Type := LGenerate | LAddSample | LSuccess | LFailure.

(** The transitions as the specification lists them. *)
Inductive specTransition : Phase -> Label -> Phase -> Prop :=
| spec_generate : specTransition Empty LGenerate Generating
| spec_generated : specTransition Generating LSuccess Ready
| spec_generate_failed : specTransition Generating LFailure Empty
| spec_add : specTransition Ready LAddSample Refining
| spec_refined : specTransition Refining LSuccess Ready
| spec_refine_failed : specTransition Refining LFailure Ready.

(** ** Predicates on runs *)

(** The event is not the fulfilment of a refinement call, or the body it
    brings carries the id the component holds. *)
Definition echoesId (e : Event) (w : World) : bool :=
  match e with
  | Settle k (Status code data) =>
      match nth_error (inflight w) k with
      | Some p =>
          match awaiting p with
          | AwaitAdd =>
              negb (validateStatus code) ||
              match personaId (hooks w) with
              | Some i => (i =? PersonaResponse.id data)%Z
              | None => false
              end
          | AwaitGenerate => true
          end
      | None => true
      end
  | _ => true
  end.

(** Every successful refinement of the run answers with the id it was
    addressed to. *)
Fixpoint refinementsEchoId (evs : list Event) (w : World) : bool :=
  match evs with
  | [] => true
  | e :: rest => echoesId e w && refinementsEchoId rest (step e w)
  end.

(** The event is not the fulfilment of a create call, or the body it brings
    carries the id 0. *)
Definition createsZero (e : Event) (w : World) : bool :=
  match e with
  | Settle k (Status code data) =>
      match nth_error (inflight w) k with
      | Some p =>
          match awaiting p with
          | AwaitGenerate =>
              negb (validateStatus code) || (PersonaResponse.id data =? 0)%Z
          | AwaitAdd => true
          end
      | None => true
      end
  | _ => true
  end.

(** No create call of the run succeeds with an id other than 0. *)
Fixpoint createsKeepZero (evs : list Event) (w : World) : bool :=
  match evs with
  | [] => true
  | e :: rest => createsZero e w && createsKeepZero rest (step e w)
  end.

(** What one step adds to the trace. *)
Definition emitted (e : Event) (w : World) : list Obs :=
  skipn (length (trace w)) (trace (step e w)).

Definition isNil {A : Type} (l : list A) : bool :=
  match l with [] => true | _ :: _ => false end.

(** ** Invariants *)

(** At most one request is in flight, [loading] says whether one is, and a
    refinement is in flight only while a persona record is held. *)
Definition gated (w : World) : Prop :=
  length (inflight w) <= 1 /\
  loading (hooks w) = negb (isNil (inflight w)) /\
  (forall p, In p (inflight w) -> awaiting p = AwaitAdd ->
             truthyPersona (persona (hooks w)) = true).

(** A held record has the held id. *)
Definition idOfRecord (w : World) : Prop :=
  forall d, persona (hooks w) = Some d ->
            personaId (hooks w) = Some (PersonaResponse.id d).

(** The held id is 0 and no refinement is in flight. *)
Definition stuckAtZero (w : World) : Prop :=
  personaId (hooks w) = Some 0%Z /\
  Forall (fun p => awaiting p = AwaitGenerate) (inflight w).

(** ** Reading runs and traces *)

(** The text the user typed last into each of the two draft fields. *)
Definition typedName (evs : list Event) (start : string) : string :=
  fold_left (fun acc e => match e with ChangeName v => v | _ => acc end)
            evs start.

Definition typedSample (evs : list Event) (start : string) : string :=
  fold_left (fun acc e => match e with ChangeSample v => v | _ => acc end)
            evs start.

(** The refinement call in flight, if any, is addressed to the held id. *)
Definition addressed (w : World) : Prop :=
  forall p, In p (inflight w) -> awaiting p = AwaitAdd ->
    truthyId (personaId (hooks w)) = true /\
    url (request p) =
      "/persona/" ++ idToString (personaId (hooks w)) ++ "/add_sample".

(** ** The component as JavaScript runs it

    The definitions above read the component through its TypeScript
    declarations: a 2xx body is a [PersonaResponse], an id is an integer, a
    name can always be encoded.  The declarations are erased at run time
    ([response.data] is [any]); the module below follows what the handlers do
    with whatever value arrives, and with any string a field can hold. *)

(** The safe integers, which a number prints with its exact decimal digits. *)
Definition isSafeInteger (i : Z) : bool :=
  (Z.abs i <=? 9007199254740991)%Z.

(** A string holds a lone surrogate: in the byte representation, the lead
    byte [ED] followed by a byte in [A0..BF] (a surrogate pair has the
    four-byte form and never shows this pattern). *)
Fixpoint hasLoneSurrogate (s : string) : bool :=
  match s with
  | EmptyString => false
  | String c rest =>
      match rest with
      | EmptyString => false
      | String d _ =>
          ((N_of_ascii c =? 237) && (160 <=? N_of_ascii d) &&
           (N_of_ascii d <=? 191))%N
          || hasLoneSurrogate rest
      end
  end.

(** [encodeURIComponent] as the handler meets it: it throws [URIError]
    ([None]) on a string with a lone surrogate. *)
Definition tryEncodeURIComponent (s : string) : option string :=
  if hasLoneSurrogate s then None else Some (encodeURIComponent s).

Fixpoint hasKey {A : Type} (k : string) (members : list (string * A)) : bool :=
  match members with
  | [] => false
  | (k', _) :: rest => (k =? k')%string || hasKey k rest
  end.

Module Untyped.

(** The values that can reach the component: what [JSON.parse] yields (or
    the raw text of a body that is not JSON), and [undefined], which reading
    a missing property gives.  A number is represented by the string that
    [Number.prototype.toString] gives for it: the component only tests a
    number for truthiness and writes it into a template literal, and that
    string decides both ([0] and [-0] both print as 0 and are both falsy). *)
#[local] Set Warnings "-register-all".
Inductive Value : Type :=
| VUndefined
| VNull
| VBool (b : bool)
| VNumber (shown : string)
| VString (s : string)
| VArray (items : list Value)
| VObject (members : list (string * Value)).
#[local] Set Warnings "register-all".

(** An integer within the safe range, as a value. *)
Definition ofInteger (i : Z) : Value := VNumber (numberToString i).

(** JavaScript truthiness. *)
Definition truthy (v : Value) : bool :=
  match v with
  | VUndefined | VNull => false
  | VBool b => b
  | VNumber shown => negb (shown =? "0")%string && negb (shown =? "NaN")%string
  | VString s => truthyString s
  | VArray _ | VObject _ => true
  end.

Fixpoint lookup (k : string) (members : list (string * Value)) : Value :=
  match members with
  | [] => VUndefined
  | (k', v) :: rest => if (k =? k')%string then v else lookup k rest
  end.

(** [data.id]: a [TypeError] ([None]) on [null] and [undefined], the member
    of an object, [undefined] on every other value. *)
Definition getId (data : Value) : option Value :=
  match data with
  | VUndefined | VNull => None
  | VObject members => Some (lookup "id" members)
  | _ => Some VUndefined
  end.

(** A value inside a template literal.  An array is joined with commas,
    [null] and [undefined] elements giving the empty string; an object
    prints as [[object Object]] unless it has a member [toString] of its
    own, which (not being callable) makes the conversion throw a
    [TypeError] ([None]). *)
Fixpoint toStringJS (v : Value) : option string :=
  match v with
  | VUndefined => Some "undefined"
  | VNull => Some "null"
  | VBool b => Some (if b then "true" else "false")
  | VNumber shown => Some shown
  | VString s => Some s
  | VArray items =>
      (fix join (l : list Value) : option string :=
         match l with
         | [] => Some ""
         | x :: rest =>
             let elt := match x with
                        | VUndefined | VNull => Some ""
                        | _ => toStringJS x
                        end in
             match rest with
             | [] => elt
             | _ :: _ =>
                 match elt, join rest with
                 | Some a, Some b => Some (a ++ "," ++ b)
                 | _, _ => None
                 end
             end
         end) items
  | VObject members =>
      if hasKey "toString" members then None else Some "[object Object]"
  end.

Inductive Reply : Type :=
| NetworkError
| Status (code : Z) (data : Value).

(** What a [catch] block can receive. *)
Inductive Error : Type :=
| AxiosError (r : Reply)
| URIError
| TypeError.

Inductive Settled : Type :=
| Fulfilled (data : Value)
| Rejected (err : Reply).

Definition settle (r : Reply) : Settled :=
  match r with
  | NetworkError => Rejected r
  | Status code data => if validateStatus code then Fulfilled data else Rejected r
  end.

Definition failed (r : Reply) : bool :=
  match r with
  | NetworkError => true
  | Status code _ => negb (validateStatus code)
  end.

Inductive Obs : Type :=
| Post (req : Request)
| Response (p : Pending) (r : Reply)
| Alert (msg : string)
| ConsoleError (err : Error).

Record Hooks : Type := mkHooks {
  name : string;
  sample : string;
  persona : Value;
  loading : bool;
  personaId : Value;
  newSample : string
}.

Record World : Type := mkWorld {
  hooks : Hooks;
  inflight : list Pending;
  trace : list Obs
}.

Definition initialHooks : Hooks :=
  mkHooks "" "" VNull false VNull "".

Definition init : World := mkWorld initialHooks [] [].

Definition setName (v : string) (h : Hooks) : Hooks :=
  mkHooks v (sample h) (persona h) (loading h) (personaId h) (newSample h).

Definition setSample (v : string) (h : Hooks) : Hooks :=
  mkHooks (name h) v (persona h) (loading h) (personaId h) (newSample h).

Definition setPersona (v : Value) (h : Hooks) : Hooks :=
  mkHooks (name h) (sample h) v (loading h) (personaId h) (newSample h).

Definition setLoading (v : bool) (h : Hooks) : Hooks :=
  mkHooks (name h) (sample h) (persona h) v (personaId h) (newSample h).

Definition setPersonaId (v : Value) (h : Hooks) : Hooks :=
  mkHooks (name h) (sample h) (persona h) (loading h) v (newSample h).

Definition setNewSample (v : string) (h : Hooks) : Hooks :=
  mkHooks (name h) (sample h) (persona h) (loading h) (personaId h) v.

(** [generatePersona], up to its [await].  [setLoading(true)] comes first;
    the URL is built inside the [try], so when [encodeURIComponent] throws
    the [catch] and [finally] blocks run at once and nothing is sent. *)
Definition generatePersona (w : World) : World :=
  let h := setLoading true (hooks w) in
  match tryEncodeURIComponent (name h) with
  | Some q =>
      let req := post ("/persona/?name=" ++ q) (sample h) in
      mkWorld h (inflight w ++ [pending AwaitGenerate req])
              (trace w ++ [Post req])
  | None =>
      mkWorld (setLoading false h) (inflight w)
              (trace w ++ [Alert "Error creating persona"; ConsoleError URIError])
  end.

(** [generatePersona], from its [await] on.  [setPersona(response.data)]
    has run when [response.data.id] is read, so a body on which that throws
    is stored all the same, and the [catch] block follows. *)
Definition generatePersonaResumed (r : Reply) (w : World) : World :=
  match settle r with
  | Fulfilled data =>
      let h := setPersona data (hooks w) in
      match getId data with
      | Some i =>
          mkWorld (setLoading false (setPersonaId i h)) (inflight w) (trace w)
      | None =>
          mkWorld (setLoading false h) (inflight w)
                  (trace w ++ [Alert "Error creating persona";
                               ConsoleError TypeError])
      end
  | Rejected err =>
      mkWorld (setLoading false (hooks w)) (inflight w)
              (trace w ++ [Alert "Error creating persona";
                           ConsoleError (AxiosError err)])
  end.

(** [addToPersona], up to its [await]: the guard, [setLoading(true)], then
    the URL, built inside the [try] from whatever [personaId] holds. *)
Definition addToPersona (w : World) : World :=
  if negb (truthy (personaId (hooks w))) then w
  else
    let h := setLoading true (hooks w) in
    match toStringJS (personaId h) with
    | Some i =>
        let req := post ("/persona/" ++ i ++ "/add_sample") (newSample h) in
        mkWorld h (inflight w ++ [pending AwaitAdd req])
                (trace w ++ [Post req])
    | None =>
        mkWorld (setLoading false h) (inflight w)
                (trace w ++ [Alert "Error updating persona";
                             ConsoleError TypeError])
    end.

(** [addToPersona], from its [await] on. *)
Definition addToPersonaResumed (r : Reply) (w : World) : World :=
  match settle r with
  | Fulfilled data =>
      mkWorld (setLoading false (setNewSample "" (setPersona data (hooks w))))
              (inflight w) (trace w)
  | Rejected err =>
      mkWorld (setLoading false (hooks w)) (inflight w)
              (trace w ++ [Alert "Error updating persona";
                           ConsoleError (AxiosError err)])
  end.

Definition resume (h : Handler) : Reply -> World -> World :=
  match h with
  | AwaitGenerate => generatePersonaResumed
  | AwaitAdd => addToPersonaResumed
  end.

(** The [disabled] attributes and the [persona && (...)] guard. *)
Definition render (h : Hooks) : View :=
  mkView (loading h || negb (truthyString (name h)) || negb (truthyString (sample h)))
         (truthy (persona h))
         (loading h || negb (truthyString (newSample h))).

Inductive Event : Type :=
| ChangeName (v : string)
| ChangeSample (v : string)
| ChangeNewSample (v : string)
| ClickGenerate
| ClickAdd
| Settle (k : nat) (r : Reply).

Definition withHooks (f : Hooks -> Hooks) (w : World) : World :=
  mkWorld (f (hooks w)) (inflight w) (trace w).

Definition step (e : Event) (w : World) : World :=
  let v := render (hooks w) in
  match e with
  | ChangeName s => withHooks (setName s) w
  | ChangeSample s => withHooks (setSample s) w
  | ChangeNewSample s =>
      if refinementShown v then withHooks (setNewSample s) w else w
  | ClickGenerate =>
      if generateDisabled v then w else generatePersona w
  | ClickAdd =>
      if refinementShown v && negb (addDisabled v) then addToPersona w else w
  | Settle k r =>
      match nth_error (inflight w) k with
      | Some p =>
          resume (awaiting p) r
            (mkWorld (hooks w) (removeAt k (inflight w))
                     (trace w ++ [Response p r]))
      | None => w
      end
  end.

Definition run (evs : list Event) (w : World) : World :=
  fold_left (fun acc e => step e acc) evs w.

(** What one step adds to the trace. *)
Definition emitted (e : Event) (w : World) : list Obs :=
  skipn (length (trace w)) (trace (step e w)).

Definition isPost (o : Obs) : bool :=
  match o with Post _ => true | _ => false end.

Definition isResponse (o : Obs) : bool :=
  match o with Response _ _ => true | _ => false end.

(** The state a world is in: a request in flight decides it, otherwise the
    presence of a persona record (a truthy [persona]) does. *)
Definition phase (w : World) : Phase :=
  match inflight w with
  | [] => if truthy (persona (hooks w)) then Ready else Empty
  | p :: _ =>
      match awaiting p with
      | AwaitGenerate => Generating
      | AwaitAdd => Refining
      end
  end.

(** The label under which an event reaches the component in a world: a click
    that invokes a handler, or the settling of a request that is in flight
    (success is a 2xx status).  Keystrokes and ignored events carry none. *)
Definition label (e : Event) (w : World) : option Label :=
  let v := render (hooks w) in
  match e with
  | ClickGenerate => if generateDisabled v then None else Some LGenerate
  | ClickAdd =>
      if refinementShown v && negb (addDisabled v) then Some LAddSample else None
  | Settle k r =>
      match nth_error (inflight w) k with
      | Some _ => Some (if failed r then LFailure else LSuccess)
      | None => None
      end
  | _ => None
  end.

(** The body a settling event brings. *)
Definition bodyOf (e : Event) : Value :=
  match e with
  | Settle _ (Status _ data) => data
  | _ => VUndefined
  end.

(** At most one request is in flight, [loading] says whether one is, a
    refinement is in flight only while a record is held, and the requests
    issued are those answered plus those in flight. *)
Definition gated (w : World) : Prop :=
  length (inflight w) <= 1 /\
  loading (hooks w) = negb (isNil (inflight w)) /\
  (forall p, In p (inflight w) -> awaiting p = AwaitAdd ->
             truthy (persona (hooks w)) = true) /\
  length (filter isPost (trace w)) =
    length (filter isResponse (trace w)) + length (inflight w).

(** The value [v] is the [id] read off the body of a successful create
    response of the trace. *)
Definition createdId (v : Value) (t : list Obs) : Prop :=
  exists p code data,
    In (Response p (Status code data)) t /\
    awaiting p = AwaitGenerate /\
    validateStatus code = true /\
    getId data = Some v.

Definition idFromCreate (w : World) : Prop :=
  truthy (personaId (hooks w)) = true ->
  createdId (personaId (hooks w)) (trace w).

(** The body of the latest 2xx response of a trace, and the [id] read off
    the latest 2xx create response whose body lets it be read. *)
Definition lastFulfilled (t : list Obs) : Value :=
  fold_left (fun acc o =>
               match o with
               | Response _ r =>
                   match settle r with
                   | Fulfilled d => d
                   | Rejected _ => acc
                   end
               | _ => acc
               end) t VNull.

Definition lastCreatedId (t : list Obs) : Value :=
  fold_left (fun acc o =>
               match o with
               | Response p r =>
                   match awaiting p, settle r with
                   | AwaitGenerate, Fulfilled d =>
                       match getId d with
                       | Some i => i
                       | None => acc
                       end
                   | _, _ => acc
                   end
               | _ => acc
               end) t VNull.

End Untyped.

(** ** From the typed reading to the run-time one

    A typed world read as the run-time world it stands for: a record is the
    object with its two members, an integer id the number with those digits,
    [null] is [null]. *)

Fixpoint valueOfJSON (j : JSON) : Untyped.Value :=
  match j with
  | JNull => Untyped.VNull
  | JBool b => Untyped.VBool b
  | JNumber n => Untyped.ofInteger n
  | JString s => Untyped.VString s
  | JArray items => Untyped.VArray (map valueOfJSON items)
  | JObject members =>
      Untyped.VObject (map (fun kv => (fst kv, valueOfJSON (snd kv))) members)
  end.

Definition valueOfResponse (d : PersonaResponse.t) : Untyped.Value :=
  Untyped.VObject [("id", Untyped.ofInteger (PersonaResponse.id d));
                   ("persona", valueOfJSON (PersonaResponse.persona d))].

Definition valueOfRecord (o : option PersonaResponse.t) : Untyped.Value :=
  match o with
  | None => Untyped.VNull
  | Some d => valueOfResponse d
  end.

Definition valueOfId (o : option Z) : Untyped.Value :=
  match o with
  | None => Untyped.VNull
  | Some i => Untyped.ofInteger i
  end.

Definition eraseReply (r : Reply) : Untyped.Reply :=
  match r with
  | NetworkError => Untyped.NetworkError
  | Status code data => Untyped.Status code (valueOfResponse data)
  end.

Definition eraseObs (o : Obs) : Untyped.Obs :=
  match o with
  | Post req => Untyped.Post req
  | Response p r => Untyped.Response p (eraseReply r)
  | Alert msg => Untyped.Alert msg
  | ConsoleError err => Untyped.ConsoleError (Untyped.AxiosError (eraseReply err))
  end.

Definition eraseHooks (h : Hooks) : Untyped.Hooks :=
  Untyped.mkHooks (name h) (sample h) (valueOfRecord (persona h)) (loading h)
                  (valueOfId (personaId h)) (newSample h).

Definition eraseWorld (w : World) : Untyped.World :=
  Untyped.mkWorld (eraseHooks (hooks w)) (inflight w) (map eraseObs (trace w)).

Definition eraseEvent (e : Event) : Untyped.Event :=
  match e with
  | ChangeName v => Untyped.ChangeName v
  | ChangeSample v => Untyped.ChangeSample v
  | ChangeNewSample v => Untyped.ChangeNewSample v
  | ClickGenerate => Untyped.ClickGenerate
  | ClickAdd => Untyped.ClickAdd
  | Settle k r => Untyped.Settle k (eraseReply r)
  end.

(** What the typed reading takes for granted of one event: the name that a
    click on Generate finds can be encoded, and the id a reply brings is a
    safe integer. *)
Definition withinContract (e : Event) (w : World) : bool :=
  match e with
  | ClickGenerate => negb (hasLoneSurrogate (name (hooks w)))
  | Settle _ (Status _ data) => isSafeInteger (PersonaResponse.id data)
  | _ => true
  end.

Fixpoint runWithinContract (evs : list Event) (w : World) : bool :=
  match evs with
  | [] => true
  | e :: rest => withinContract e w && runWithinContract rest (step e w)
  end.

(** ** Basic facts about the model *)

Lemma settle_failed (r : Reply) : failed r = true -> settle r = Rejected r.
Proof.
  destruct r as [|code data]; simpl; [reflexivity|].
  destruct (validateStatus code); [discriminate | reflexivity].
Qed.

Lemma settle_ok (code : Z) (data : PersonaResponse.t) :
  validateStatus code = true -> settle (Status code data) = Fulfilled data.
Proof. intros H; simpl; rewrite H; reflexivity. Qed.

Lemma nth_error_snoc {A : Type} (l : list A) (x : A) :
  nth_error (l ++ [x]) (length l) = Some x.
Proof. induction l as [|y l IH]; simpl; [reflexivity | exact IH]. Qed.

Lemma nth_error_length_absurd {A : Type} (l : list A) (x : A) :
  nth_error l (length l) = Some x -> False.
Proof.
  intros H.
  assert (length l < length l) by (apply nth_error_Some; rewrite H; discriminate).
  lia.
Qed.

Lemma run_cons (e : Event) (evs : list Event) (w : World) :
  run (e :: evs) w = run evs (step e w).
Proof. reflexivity. Qed.

Lemma run_snoc (evs : list Event) (e : Event) (w : World) :
  run (evs ++ [e]) w = step e (run evs w).
Proof. unfold run; rewrite fold_left_app; reflexivity. Qed.

(** A keystroke touches the three text cells only. *)
Lemma keystroke_frame (e : Event) (w : World) :
  isKeystroke e = true ->
  persona (hooks (step e w)) = persona (hooks w) /\
  personaId (hooks (step e w)) = personaId (hooks w) /\
  loading (hooks (step e w)) = loading (hooks w) /\
  inflight (step e w) = inflight w /\
  trace (step e w) = trace w.
Proof.
  destruct e; simpl; try discriminate; intros _;
    try (destruct (truthyPersona (persona (hooks w)))); simpl; auto.
Qed.

Lemma keystrokes_frame (keys : list Event) (w : World) :
  forallb isKeystroke keys = true ->
  persona (hooks (run keys w)) = persona (hooks w) /\
  personaId (hooks (run keys w)) = personaId (hooks w) /\
  loading (hooks (run keys w)) = loading (hooks w) /\
  inflight (run keys w) = inflight w /\
  trace (run keys w) = trace w.
Proof.
  revert w; induction keys as [|e keys IH]; intros w Hk; simpl in Hk.
  - simpl; auto.
  - apply andb_prop in Hk as [He Hks]. rewrite run_cons.
    destruct (keystroke_frame e w He) as (A & B & C & D & E).
    destruct (IH (step e w) Hks) as (A' & B' & C' & D' & E').
    repeat split; congruence.
Qed.

(** ** The two handlers, one execution at a time

    An execution of a handler from a world [w]: the handler runs up to its
    [await], the user may go on typing while the request is in flight
    ([keys]), and the request, which sits at position [length (inflight w)],
    settles with a reply. *)

(** C1. For every non-empty name and non-empty sample, when the create call
    succeeds (a 2xx reply carrying [data]), the stored persona record is the
    response body and the stored persona id is the [id] of that body. *)
Theorem generatePersona_success
  (w : World) (keys : list Event) (code : Z) (data : PersonaResponse.t) :
  name (hooks w) <> "" ->
  sample (hooks w) <> "" ->
  forallb isKeystroke keys = true ->
  validateStatus code = true ->
  let w' := step (Settle (length (inflight w)) (Status code data))
                 (run keys (generatePersona w)) in
  persona (hooks w') = Some data /\
  personaId (hooks w') = Some (PersonaResponse.id data).
Proof.
  intros _ _ Hk Hc w'; subst w'.
  destruct (keystrokes_frame keys (generatePersona w) Hk) as (_ & _ & _ & Hi & _).
  unfold step. rewrite Hi. cbn [generatePersona inflight].
  rewrite nth_error_snoc. cbn [resume awaiting].
  unfold generatePersonaResumed. rewrite (settle_ok code data Hc).
  split; reflexivity.
Qed.

Lemma generatePersona_success_witness :
  let w := mkWorld (mkHooks "Hemingwayish" "It was a good day." None false None "") [] [] in
  let data := PersonaResponse.mk 1 (JObject [("summary", JString "terse")]) in
  let w' := step (Settle 0 (Status 200 data)) (run [ChangeName "Papa"] (generatePersona w)) in
  persona (hooks w') = Some data /\ personaId (hooks w') = Some 1%Z.
Proof.
  intros w data.
  apply (generatePersona_success w [ChangeName "Papa"] 200 data);
    [discriminate | discriminate | reflexivity | reflexivity].
Defined.

(** C2. Whenever the create call fails (network error or a status outside
    2xx), the persona record and the persona id are what they were before
    [generatePersona] was invoked, and the failure is surfaced:
    [alert('Error creating persona')] followed by [console.error(err)]. *)
Theorem generatePersona_failure
  (w : World) (keys : list Event) (r : Reply) :
  forallb isKeystroke keys = true ->
  failed r = true ->
  let w1 := run keys (generatePersona w) in
  let w' := step (Settle (length (inflight w)) r) w1 in
  persona (hooks w') = persona (hooks w) /\
  personaId (hooks w') = personaId (hooks w) /\
  exists p, trace w' =
    (trace w1 ++ [Response p r; Alert "Error creating persona"; ConsoleError r])%list.
Proof.
  intros Hk Hf w1 w'; subst w' w1.
  destruct (keystrokes_frame keys (generatePersona w) Hk) as (Hp & Hid & _ & Hi & _).
  unfold step. rewrite Hi. cbn [generatePersona inflight].
  rewrite nth_error_snoc. cbn [resume awaiting].
  unfold generatePersonaResumed. rewrite (settle_failed r Hf).
  cbn [hooks trace setLoading persona personaId].
  rewrite Hp, Hid. cbn [generatePersona hooks setLoading persona personaId].
  repeat split. eexists. rewrite <- app_assoc. reflexivity.
Qed.

Lemma generatePersona_failure_witness :
  let w := mkWorld (mkHooks "a b" "x" None false None "") [] [] in
  let w1 := run [] (generatePersona w) in
  let w' := step (Settle 0 (Status 500 (PersonaResponse.mk 0 JNull))) w1 in
  persona (hooks w') = None /\
  personaId (hooks w') = None /\
  exists p, trace w' =
    (trace w1 ++ [Response p (Status 500 (PersonaResponse.mk 0 JNull));
                  Alert "Error creating persona";
                  ConsoleError (Status 500 (PersonaResponse.mk 0 JNull))])%list.
Proof.
  intros w.
  apply (generatePersona_failure w [] (Status 500 (PersonaResponse.mk 0 JNull)));
    reflexivity.
Defined.

(** C3. In an execution of [addToPersona] in which the persona id is set and
    the update call (the request this invocation put in flight) succeeds, the
    persona record becomes the response body, whatever it was before, and
    [newSample] becomes the empty string. *)
Theorem addToPersona_success
  (w : World) (i : Z) (keys : list Event) (p : Pending)
  (code : Z) (data : PersonaResponse.t) :
  personaId (hooks w) = Some i ->
  forallb isKeystroke keys = true ->
  nth_error (inflight (addToPersona w)) (length (inflight w)) = Some p ->
  validateStatus code = true ->
  let w' := step (Settle (length (inflight w)) (Status code data))
                 (run keys (addToPersona w)) in
  persona (hooks w') = Some data /\
  newSample (hooks w') = "" /\
  request p = post ("/persona/" ++ numberToString i ++ "/add_sample")
                   (newSample (hooks w)).
Proof.
  intros Hid Hk Hp Hc w'; subst w'.
  destruct (keystrokes_frame keys (addToPersona w) Hk) as (_ & _ & _ & Hi & _).
  unfold step. rewrite Hi, Hp.
  unfold addToPersona in Hp. rewrite Hid in Hp. cbn [idToString] in Hp.
  destruct (negb (truthyId (Some i))).
  - exfalso. exact (nth_error_length_absurd _ _ Hp).
  - cbn [inflight] in Hp. rewrite nth_error_snoc in Hp.
    injection Hp as <-. cbn [resume awaiting request].
    unfold addToPersonaResumed. rewrite (settle_ok code data Hc).
    repeat split.
Qed.

Lemma addToPersona_success_witness :
  let d1 := PersonaResponse.mk 1 (JObject [("summary", JString "terse")]) in
  let d2 := PersonaResponse.mk 1 (JObject [("summary", JString "calm")]) in
  let w := mkWorld (mkHooks "Hemingwayish" "It was a good day." (Some d1) false
                            (Some 1%Z) "The sea was calm.") [] [] in
  let p := pending AwaitAdd (post "/persona/1/add_sample" "The sea was calm.") in
  let w' := step (Settle 0 (Status 200 d2)) (run [] (addToPersona w)) in
  persona (hooks w') = Some d2 /\
  newSample (hooks w') = "" /\
  request p = post "/persona/1/add_sample" "The sea was calm.".
Proof.
  intros d1 d2 w p.
  apply (addToPersona_success w 1%Z [] p 200 d2); reflexivity.
Defined.

(** C4. In an execution of [addToPersona] in which the update call fails,
    the persona record is what it was before the invocation, [newSample]
    keeps the text it holds when the failure arrives, and the failure is
    surfaced: [alert('Error updating persona')] then [console.error(err)]. *)
Theorem addToPersona_failure
  (w : World) (keys : list Event) (p : Pending) (r : Reply) :
  forallb isKeystroke keys = true ->
  nth_error (inflight (addToPersona w)) (length (inflight w)) = Some p ->
  failed r = true ->
  let w1 := run keys (addToPersona w) in
  let w' := step (Settle (length (inflight w)) r) w1 in
  persona (hooks w') = persona (hooks w) /\
  newSample (hooks w') = newSample (hooks w1) /\
  newSample (hooks (addToPersona w)) = newSample (hooks w) /\
  trace w' =
    (trace w1 ++ [Response p r; Alert "Error updating persona"; ConsoleError r])%list.
Proof.
  intros Hk Hp Hf w1 w'; subst w' w1.
  destruct (keystrokes_frame keys (addToPersona w) Hk) as (HP & _ & _ & Hi & _).
  unfold step. rewrite Hi, Hp.
  assert (Hw : persona (hooks (addToPersona w)) = persona (hooks w) /\
               newSample (hooks (addToPersona w)) = newSample (hooks w) /\
               awaiting p = AwaitAdd).
  { unfold addToPersona in *.
    destruct (negb (truthyId (personaId (hooks w)))).
    - exfalso. exact (nth_error_length_absurd _ _ Hp).
    - cbn [inflight] in Hp. rewrite nth_error_snoc in Hp.
      injection Hp as <-. repeat split. }
  destruct Hw as (Hw1 & Hw2 & Hw3). rewrite Hw3. cbn [resume].
  unfold addToPersonaResumed. rewrite (settle_failed r Hf).
  cbn [hooks trace setLoading persona newSample].
  repeat split.
  - congruence.
  - exact Hw2.
  - rewrite <- app_assoc. reflexivity.
Qed.

Lemma addToPersona_failure_witness :
  let d1 := PersonaResponse.mk 1 (JObject [("summary", JString "terse")]) in
  let w := mkWorld (mkHooks "Hemingwayish" "It was a good day." (Some d1) false
                            (Some 1%Z) "The sea") [] [] in
  let p := pending AwaitAdd (post "/persona/1/add_sample" "The sea") in
  let w1 := run [ChangeNewSample "The sea was calm."] (addToPersona w) in
  let w' := step (Settle 0 NetworkError) w1 in
  persona (hooks w') = Some d1 /\
  newSample (hooks w') = "The sea was calm." /\
  newSample (hooks (addToPersona w)) = "The sea" /\
  trace w' =
    (trace w1 ++ [Response p NetworkError; Alert "Error updating persona";
                  ConsoleError NetworkError])%list.
Proof.
  intros d1 w p.
  apply (addToPersona_failure w [ChangeNewSample "The sea was calm."] p NetworkError);
    reflexivity.
Defined.

(** C5. Invoked while the persona id is unset, [addToPersona] does nothing:
    the world it returns is the world it was given, so no request is issued
    (trace and in-flight list are the same) and no state cell changes; the
    same holds for a click on the button that is bound to it. *)
Theorem addToPersona_unset_noop (w : World) :
  personaId (hooks w) = None ->
  addToPersona w = w /\ step ClickAdd w = w.
Proof.
  intros Hid.
  assert (H : addToPersona w = w) by (unfold addToPersona; rewrite Hid; reflexivity).
  split; [exact H|].
  unfold step. rewrite H. destruct (_ && _); reflexivity.
Qed.

Lemma addToPersona_unset_noop_witness :
  let w := mkWorld (mkHooks "n" "s" None false None "more") [] [] in
  addToPersona w = w /\ step ClickAdd w = w.
Proof.
  intros w. apply (addToPersona_unset_noop w). reflexivity.
Defined.

(** ** Invariants of reachable worlds *)

Lemma gated_init : gated init.
Proof. repeat split; simpl; auto; intros p []. Qed.

Lemma gated_step (e : Event) (w : World) : gated w -> gated (step e w).
Proof.
  destruct w as [[n s pe l pid ns] fl tr].
  intros (Hlen & Hload & Hadd); simpl in *.
  destruct fl as [|p [|q fl]]; simpl in *; try lia; subst l.
  - (* nothing in flight *)
    destruct e as [v|v|v| | |k r]; unfold step; simpl.
    + repeat split; simpl; auto.
    + repeat split; simpl; auto.
    + destruct (truthyPersona pe); repeat split; simpl; auto.
    + destruct (negb (truthyString n) || negb (truthyString s));
        repeat split; simpl; auto.
      intros p [<-|[]]; discriminate.
    + destruct (truthyPersona pe) eqn:Hpe; simpl; [|repeat split; simpl; auto].
      destruct (negb (negb (truthyString ns))); [|repeat split; simpl; auto; congruence].
      unfold addToPersona; simpl.
      destruct (negb (truthyId pid)); repeat split; simpl; auto; congruence.
    + destruct k; repeat split; simpl; auto.
  - (* one request in flight: the buttons are disabled *)
    destruct e as [v|v|v| | |k r]; unfold step; simpl.
    + repeat split; simpl; auto.
    + repeat split; simpl; auto.
    + destruct (truthyPersona pe) eqn:E; repeat split; simpl; auto;
        rewrite E; exact Hadd.
    + repeat split; simpl; auto.
    + rewrite andb_false_r. repeat split; simpl; auto.
    + destruct k as [|k]; simpl.
      * destruct p as [[|] req]; simpl;
          [unfold generatePersonaResumed | unfold addToPersonaResumed];
          destruct (settle r); repeat split; simpl; auto; intros ? [].
      * destruct k; repeat split; simpl; auto.
Qed.

Lemma gated_run (evs : list Event) (w : World) : gated w -> gated (run evs w).
Proof.
  revert w; induction evs as [|e evs IH]; intros w Hw; [exact Hw|].
  rewrite run_cons. apply IH, gated_step, Hw.
Qed.

Lemma gated_reachable (evs : list Event) : gated (run evs init).
Proof. apply gated_run, gated_init. Qed.

(** ** The persona id and the record's id *)

Lemma idOfRecord_step (e : Event) (w : World) :
  echoesId e w = true -> idOfRecord w -> idOfRecord (step e w).
Proof.
  unfold idOfRecord. intros He Hw.
  destruct e as [v|v|v| | |k r]; unfold step; simpl.
  - exact Hw.
  - exact Hw.
  - destruct (truthyPersona (persona (hooks w))); exact Hw.
  - destruct (_ || _); [exact Hw|]. exact Hw.
  - destruct (_ && _); [|exact Hw]. unfold addToPersona.
    destruct (negb _); exact Hw.
  - simpl in He. destruct (nth_error (inflight w) k) as [p|]; [|exact Hw].
    destruct (awaiting p); simpl.
    + unfold generatePersonaResumed. destruct (settle r) eqn:Hs; simpl.
      * intros d [= <-]. reflexivity.
      * exact Hw.
    + unfold addToPersonaResumed. destruct r as [|code data]; simpl; [exact Hw|].
      destruct (validateStatus code); simpl in *; [|exact Hw].
      intros d [= <-].
      destruct (personaId (hooks w)) as [i|]; [|discriminate].
      apply Z.eqb_eq in He. congruence.
Qed.

Lemma idOfRecord_run (evs : list Event) (w : World) :
  refinementsEchoId evs w = true -> idOfRecord w -> idOfRecord (run evs w).
Proof.
  revert w; induction evs as [|e evs IH]; intros w He Hw; [exact Hw|].
  simpl in He. apply andb_prop in He as [He Hes].
  rewrite run_cons. apply IH; [exact Hes|]. apply idOfRecord_step; assumption.
Qed.

(** C6, as stated, fails: a refinement whose response carries another id
    replaces the record and leaves the persona id as it was. *)
Lemma personaId_is_record_id_counterexample :
  ~ (forall evs d,
       persona (hooks (run evs init)) = Some d ->
       personaId (hooks (run evs init)) = Some (PersonaResponse.id d)).
Proof.
  intros H.
  specialize (H [ChangeName "n"; ChangeSample "s"; ClickGenerate;
                 Settle 0 (Status 200 (PersonaResponse.mk 1 JNull));
                 ChangeNewSample "t"; ClickAdd;
                 Settle 0 (Status 200 (PersonaResponse.mk 2 JNull))]
                (PersonaResponse.mk 2 JNull) eq_refl).
  discriminate H.
Qed.

(** C6, amended. In every reachable world that holds a persona record, the
    persona id is the record's id, provided every successful refinement
    response of the run carries the id the component held when it arrived
    (the id the call was addressed to): [addToPersona] stores the response
    and does not derive the persona id from it again. *)
Theorem personaId_is_record_id (evs : list Event) (d : PersonaResponse.t) :
  refinementsEchoId evs init = true ->
  persona (hooks (run evs init)) = Some d ->
  personaId (hooks (run evs init)) = Some (PersonaResponse.id d).
Proof.
  intros He. apply (idOfRecord_run evs init He). intros d' H; discriminate H.
Qed.

Lemma personaId_is_record_id_witness :
  personaId (hooks (run [ChangeName "n"; ChangeSample "s"; ClickGenerate;
                         Settle 0 (Status 200 (PersonaResponse.mk 1 JNull));
                         ChangeNewSample "t"; ClickAdd;
                         Settle 0 (Status 201 (PersonaResponse.mk 1 (JBool true)))]
                        init))
  = Some 1%Z.
Proof.
  apply (personaId_is_record_id _ (PersonaResponse.mk 1 (JBool true)));
    reflexivity.
Defined.

(** ** Percent-encoding *)

Ltac each_byte c :=
  destruct c as [[|] [|] [|] [|] [|] [|] [|] [|]]; vm_compute;
  repeat split; congruence.

Lemma unescaped_not_percent (c : ascii) :
  uriUnescaped c = true -> (N_of_ascii c =? 37)%N = false.
Proof. each_byte c. Qed.

Lemma hexValue_hexDigit (c : ascii) :
  hexValue (hexDigit (N_of_ascii c / 16)) = Some (N_of_ascii c / 16)%N /\
  hexValue (hexDigit (N_of_ascii c mod 16)) = Some (N_of_ascii c mod 16)%N /\
  ascii_of_N (16 * (N_of_ascii c / 16) + N_of_ascii c mod 16) = c.
Proof. each_byte c. Qed.

Lemma hexDigit_querySafe (c : ascii) :
  querySafe (hexDigit (N_of_ascii c / 16)) = true /\
  querySafe (hexDigit (N_of_ascii c mod 16)) = true.
Proof. each_byte c. Qed.

(** The encoding can be undone: it loses nothing of the name. *)
Lemma percentDecode_encodeURIComponent (s : string) :
  percentDecode (encodeURIComponent s) = Some s.
Proof.
  induction s as [|c s IH]; [reflexivity|].
  cbn [encodeURIComponent]. destruct (uriUnescaped c) eqn:E.
  - cbn [percentDecode]. rewrite (unescaped_not_percent c E), IH. reflexivity.
  - cbv zeta. cbn [percentDecode].
    change (N_of_ascii "%" =? 37)%N with true. cbv iota.
    destruct (hexValue_hexDigit c) as (Hh & Hl & Hc).
    rewrite Hh, Hl, IH, Hc. reflexivity.
Qed.

(** The encoding is made of unescaped characters and percent escapes. *)
Lemma encodeURIComponent_querySafe (s : string) :
  allChars querySafe (encodeURIComponent s) = true.
Proof.
  induction s as [|c s IH]; [reflexivity|].
  cbn [encodeURIComponent]. destruct (uriUnescaped c) eqn:E.
  - cbn [allChars]. unfold querySafe at 1. rewrite E, IH. reflexivity.
  - cbv zeta. cbn [allChars].
    destruct (hexDigit_querySafe c) as (Hh & Hl).
    rewrite Hh, Hl, IH. reflexivity.
Qed.

(** ** The requests the component issues *)

Lemma skipn_length_app {A : Type} (l d : list A) :
  skipn (length l) (l ++ d) = d.
Proof. induction l as [|x l IH]; simpl; [reflexivity | exact IH]. Qed.

Lemma skipn_length {A : Type} (l : list A) : skipn (length l) l = [].
Proof. induction l as [|x l IH]; simpl; [reflexivity | exact IH]. Qed.

(** ** A persona whose id is 0 *)

Lemma Forall_removeAt {A : Type} (P : A -> Prop) (k : nat) (l : list A) :
  Forall P l -> Forall P (removeAt k l).
Proof.
  intros H; revert k; induction H as [|x l Hx Hl IH]; intros k; simpl.
  - constructor.
  - destruct k; [exact Hl | constructor; [exact Hx | apply IH]].
Qed.

Lemma stuckAtZero_step (e : Event) (w : World) :
  createsZero e w = true -> stuckAtZero w -> stuckAtZero (step e w).
Proof.
  unfold stuckAtZero. intros He (Hid & Hfl).
  destruct e as [v|v|v| | |k r]; unfold step; simpl.
  - auto.
  - auto.
  - destruct (truthyPersona (persona (hooks w))); auto.
  - destruct (_ || _); [auto|]. simpl. split; [exact Hid|].
    apply Forall_app; split; [exact Hfl|]. repeat constructor.
  - destruct (_ && _); [|auto]. unfold addToPersona. rewrite Hid. simpl. auto.
  - simpl in He.
    destruct (nth_error (inflight w) k) as [p|] eqn:Hk; [|auto].
    pose proof (Forall_removeAt _ k _ Hfl) as Hrm.
    assert (Hp : awaiting p = AwaitGenerate).
    { apply nth_error_In in Hk. rewrite Forall_forall in Hfl. apply Hfl, Hk. }
    rewrite Hp in *. simpl. unfold generatePersonaResumed.
    destruct r as [|code data]; simpl; [auto|].
    destruct (validateStatus code); simpl in *; [|auto].
    apply Z.eqb_eq in He. rewrite He. auto.
Qed.

Lemma stuckAtZero_run (evs : list Event) (w : World) :
  createsKeepZero evs w = true -> stuckAtZero w -> stuckAtZero (run evs w).
Proof.
  revert w; induction evs as [|e evs IH]; intros w He Hw; [exact Hw|].
  simpl in He. apply andb_prop in He as [He Hes].
  rewrite run_cons. apply IH; [exact Hes|]. apply stuckAtZero_step; assumption.
Qed.

(** C10, as stated, fails: the Generate button stays enabled, and a later
    create call that succeeds with another id makes [addToPersona] issue
    requests again. *)
Lemma zero_id_counterexample :
  ~ (forall evs k p code data later,
       let w := run evs init in
       nth_error (inflight w) k = Some p ->
       awaiting p = AwaitGenerate ->
       validateStatus code = true ->
       PersonaResponse.id data = 0%Z ->
       let w1 := step (Settle k (Status code data)) w in
       let w2 := run later w1 in
       persona (hooks w1) = Some data /\
       refinementShown (render (hooks w1)) = true /\
       addToPersona w2 = w2).
Proof.
  intros H.
  specialize (H [ChangeName "n"; ChangeSample "s"; ClickGenerate] 0
                (pending AwaitGenerate (post "/persona/?name=n" "s"))
                200%Z (PersonaResponse.mk 0 JNull)
                [ClickGenerate; Settle 0 (Status 200 (PersonaResponse.mk 5 JNull))]
                eq_refl eq_refl eq_refl eq_refl).
  destruct H as (_ & _ & H). vm_compute in H. discriminate H.
Qed.

(** C10, amended. When a successful create response carries id 0, the
    component stores the record and shows the refinement section; from then
    on, as long as no later create call succeeds with another id, the persona
    id stays 0 and every invocation of [addToPersona], directly or through
    its button, returns early: the world is left as it is and no request is
    issued. *)
Theorem zero_id_blocks_refinement
  (evs : list Event) (k : nat) (p : Pending) (code : Z)
  (data : PersonaResponse.t) (later : list Event) :
  let w := run evs init in
  nth_error (inflight w) k = Some p ->
  awaiting p = AwaitGenerate ->
  validateStatus code = true ->
  PersonaResponse.id data = 0%Z ->
  let w1 := step (Settle k (Status code data)) w in
  let w2 := run later w1 in
  createsKeepZero later w1 = true ->
  persona (hooks w1) = Some data /\
  refinementShown (render (hooks w1)) = true /\
  personaId (hooks w2) = Some 0%Z /\
  addToPersona w2 = w2 /\
  step ClickAdd w2 = w2.
Proof.
  intros w Hk Hp Hc Hz w1 w2 Hlater.
  pose proof (gated_reachable evs) as (Hlen & _ & _). fold w in Hlen.
  assert (H1 : persona (hooks w1) = Some data /\ stuckAtZero w1).
  { subst w1. clearbody w. unfold step. rewrite Hk, Hp. cbn [resume].
    unfold generatePersonaResumed. rewrite (settle_ok code data Hc).
    unfold stuckAtZero. cbn [hooks inflight persona personaId setLoading
                             setPersonaId setPersona].
    rewrite Hz. split; [reflexivity|]. split; [reflexivity|].
    destruct (inflight w) as [|q [|q' fl]]; simpl in Hlen; try lia.
    - destruct k; discriminate Hk.
    - destruct k as [|[|k]]; try discriminate Hk. constructor. }
  destruct H1 as (Hpe & Hstuck).
  pose proof (stuckAtZero_run later w1 Hlater Hstuck) as (Hid2 & _). fold w2 in Hid2.
  assert (Hadd : addToPersona w2 = w2).
  { unfold addToPersona. rewrite Hid2. reflexivity. }
  repeat split.
  - exact Hpe.
  - unfold render. cbn [refinementShown]. rewrite Hpe. reflexivity.
  - exact Hid2.
  - exact Hadd.
  - unfold step. rewrite Hadd. destruct (_ && _); reflexivity.
Qed.

Lemma zero_id_blocks_refinement_witness :
  let w := run [ChangeName "n"; ChangeSample "s"; ClickGenerate] init in
  let data := PersonaResponse.mk 0 (JObject [("summary", JString "terse")]) in
  let w1 := step (Settle 0 (Status 200 data)) w in
  let w2 := run [ChangeNewSample "more"; ClickAdd; ClickGenerate;
                 Settle 0 NetworkError; ClickAdd] w1 in
  persona (hooks w1) = Some data /\
  refinementShown (render (hooks w1)) = true /\
  personaId (hooks w2) = Some 0%Z /\
  addToPersona w2 = w2 /\
  step ClickAdd w2 = w2.
Proof.
  intros w data.
  apply (zero_id_blocks_refinement
           [ChangeName "n"; ChangeSample "s"; ClickGenerate] 0
           (pending AwaitGenerate (post "/persona/?name=n" "s")) 200%Z data
           [ChangeNewSample "more"; ClickAdd; ClickGenerate;
            Settle 0 NetworkError; ClickAdd]);
    reflexivity.
Defined.

(** ** The draft fields *)

Lemma typed_step (e : Event) (w : World) :
  name (hooks (step e w)) =
    match e with ChangeName v => v | _ => name (hooks w) end /\
  sample (hooks (step e w)) =
    match e with ChangeSample v => v | _ => sample (hooks w) end.
Proof.
  destruct e as [v|v|v| | |k r]; unfold step; simpl; auto.
  - destruct (truthyPersona (persona (hooks w))); auto.
  - destruct (_ || _); auto.
  - destruct (_ && _); [|auto]. unfold addToPersona. destruct (negb _); auto.
  - destruct (nth_error (inflight w) k) as [p|]; [|auto].
    destruct (awaiting p); simpl;
      [unfold generatePersonaResumed | unfold addToPersonaResumed];
      destruct (settle r); auto.
Qed.

(** X8. The two draft fields hold what the user typed last, whatever else
    happened: no click, no response and no failure clears or changes the
    name or the sample, so a failed create can be retried as it stands. *)
Theorem drafts_hold_what_was_typed (evs : list Event) (w : World) :
  name (hooks (run evs w)) = typedName evs (name (hooks w)) /\
  sample (hooks (run evs w)) = typedSample evs (sample (hooks w)).
Proof.
  revert w; induction evs as [|e evs IH]; intros w; [split; reflexivity|].
  rewrite run_cons. destruct (IH (step e w)) as (Hn & Hs).
  destruct (typed_step e w) as (Hn' & Hs').
  unfold typedName, typedSample in *. cbn [fold_left].
  rewrite Hn, Hs, Hn', Hs'. split; reflexivity.
Qed.

(** ** After a refinement settles *)

(** X9. A successful refinement cannot be submitted twice by accident: the
    step that stores the response clears the new sample, which disables the
    Add button, so a click that follows immediately changes nothing and
    issues no request. *)
Theorem refined_sample_not_resubmitted
  (w : World) (k : nat) (p : Pending) (code : Z) (data : PersonaResponse.t) :
  nth_error (inflight w) k = Some p ->
  awaiting p = AwaitAdd ->
  validateStatus code = true ->
  let w' := step (Settle k (Status code data)) w in
  addDisabled (render (hooks w')) = true /\
  step ClickAdd w' = w'.
Proof.
  intros Hk Hp Hc w'.
  assert (Hd : addDisabled (render (hooks w')) = true).
  { subst w'. unfold step. rewrite Hk, Hp. cbn [resume].
    unfold addToPersonaResumed. rewrite (settle_ok code data Hc).
    unfold render; cbn. reflexivity. }
  split; [exact Hd|].
  unfold step. rewrite Hd. cbn [negb]. rewrite andb_false_r. reflexivity.
Qed.

Lemma refined_sample_not_resubmitted_witness :
  let w := mkWorld (mkHooks "n" "s" (Some (PersonaResponse.mk 1 JNull)) true
                            (Some 1%Z) "The sea was calm.")
                   [pending AwaitAdd (post "/persona/1/add_sample" "The sea was calm.")]
                   [] in
  let w' := step (Settle 0 (Status 200 (PersonaResponse.mk 1 (JBool true)))) w in
  addDisabled (render (hooks w')) = true /\
  step ClickAdd w' = w'.
Proof.
  intros w.
  apply (refined_sample_not_resubmitted w 0
           (pending AwaitAdd (post "/persona/1/add_sample" "The sea was calm."))
           200%Z (PersonaResponse.mk 1 (JBool true)));
    reflexivity.
Defined.

Lemma addressed_step (e : Event) (w : World) :
  gated w -> addressed w -> addressed (step e w).
Proof.
  unfold addressed. intros (Hlen & _ & _) Hw.
  destruct e as [v|v|v| | |k r]; unfold step; simpl.
  - exact Hw.
  - exact Hw.
  - destruct (truthyPersona (persona (hooks w))); exact Hw.
  - destruct (_ || _); [exact Hw|]. simpl.
    intros p Hin Hp. apply in_app_or in Hin as [Hin|[<-|[]]];
      [exact (Hw p Hin Hp) | discriminate Hp].
  - destruct (_ && _); [|exact Hw]. unfold addToPersona.
    destruct (truthyId (personaId (hooks w))) eqn:Ht; simpl.
    + intros p Hin Hp. apply in_app_or in Hin as [Hin|[<-|[]]].
      * destruct (Hw p Hin Hp) as (_ & Hu). split; [exact Ht | exact Hu].
      * split; [exact Ht | reflexivity].
    + intros p Hin Hp. destruct (Hw p Hin Hp) as (H & _). discriminate H.
  - destruct (nth_error (inflight w) k) as [p|] eqn:Hk; [|exact Hw].
    assert (Hnil : removeAt k (inflight w) = []).
    { destruct (inflight w) as [|q [|q' fl]]; simpl in Hlen; try lia.
      - destruct k; discriminate Hk.
      - destruct k as [|[|k]]; try discriminate Hk. reflexivity. }
    rewrite Hnil.
    destruct (awaiting p); simpl;
      [unfold generatePersonaResumed | unfold addToPersonaResumed];
      destruct (settle r); simpl; intros q [].
Qed.

Lemma addressed_reachable (evs : list Event) : addressed (run evs init).
Proof.
  induction evs as [|e evs IH] using rev_ind.
  - intros p [].
  - rewrite run_snoc. apply addressed_step; [apply gated_reachable | exact IH].
Qed.

(** X10. A failed refinement can be retried as it stands: in a reachable
    world, once the failure of the refinement call has been handled, a click
    on the Add button (the text still being non-empty) issues a request to
    the very URL of the call that failed, carrying the text now held. *)
Theorem failed_refinement_retry
  (evs : list Event) (k : nat) (p : Pending) (r : Reply) :
  let w := run evs init in
  nth_error (inflight w) k = Some p ->
  awaiting p = AwaitAdd ->
  failed r = true ->
  newSample (hooks w) <> "" ->
  let w' := step (Settle k r) w in
  emitted ClickAdd w' =
    [Post (post (url (request p)) (newSample (hooks w)))].
Proof.
  intros w Hk Hp Hf Hs w'.
  pose proof (gated_reachable evs) as (Hlen & _ & Hrec).
  pose proof (addressed_reachable evs) as Haddr.
  fold w in Hlen, Hrec, Haddr. clearbody w.
  pose proof (nth_error_In _ _ Hk) as Hin.
  destruct (Haddr p Hin Hp) as (Ht & Hurl).
  specialize (Hrec p Hin Hp).
  assert (Hts : truthyString (newSample (hooks w)) = true).
  { destruct (newSample (hooks w)); [contradiction | reflexivity]. }
  assert (E : w' = mkWorld (setLoading false (hooks w))
                           (removeAt k (inflight w))
                           ((trace w ++ [Response p r]) ++
                            [Alert "Error updating persona"; ConsoleError r])).
  { subst w'. unfold step. rewrite Hk, Hp. cbn [resume].
    unfold addToPersonaResumed. rewrite (settle_failed r Hf). reflexivity. }
  rewrite E. unfold emitted, step, render.
  cbn [hooks trace refinementShown addDisabled setLoading
       persona loading newSample].
  rewrite Hrec, Hts. cbn [negb orb andb].
  unfold addToPersona. cbn [hooks trace setLoading personaId newSample].
  rewrite Ht. cbn [negb trace].
  rewrite skipn_length_app, Hurl. reflexivity.
Qed.

Lemma failed_refinement_retry_witness :
  let evs := [ChangeName "n"; ChangeSample "s"; ClickGenerate;
              Settle 0 (Status 200 (PersonaResponse.mk 7 JNull));
              ChangeNewSample "The sea"; ClickAdd;
              ChangeNewSample "The sea was calm."] in
  let p := pending AwaitAdd (post "/persona/7/add_sample" "The sea") in
  emitted ClickAdd (step (Settle 0 NetworkError) (run evs init)) =
    [Post (post (url (request p)) (newSample (hooks (run evs init))))].
Proof.
  intros evs p.
  apply (failed_refinement_retry evs 0 p NetworkError);
    [reflexivity | reflexivity | reflexivity | discriminate].
Defined.

(** ** The URLs name what they address *)

Lemma length_append (a s : string) :
  String.length (a ++ s) = String.length a + String.length s.
Proof. induction a as [|c a IH]; simpl; [reflexivity | now rewrite IH]. Qed.

Lemma append_cancel_r (a b s : string) : a ++ s = b ++ s -> a = b.
Proof.
  revert b; induction a as [|c a IH]; intros [|c' b] H; simpl in H.
  - reflexivity.
  - apply (f_equal String.length) in H. simpl in H.
    rewrite length_append in H. lia.
  - apply (f_equal String.length) in H. simpl in H.
    rewrite length_append in H. lia.
  - injection H as -> H. rewrite (IH b H). reflexivity.
Qed.

Lemma numberToString_inj (i j : Z) :
  numberToString i = numberToString j -> i = j.
Proof.
  unfold numberToString. intros H.
  apply DecimalZ.to_int_inj.
  assert (Hnil : forall z, Z.to_int z <> Decimal.Pos Decimal.Nil /\
                           Z.to_int z <> Decimal.Neg Decimal.Nil).
  { intros [|p|p]; simpl; split; try discriminate;
      intros [= E]; exact (DecimalPos.Unsigned.to_uint_nonnil p E). }
  apply (f_equal NilZero.int_of_string) in H.
  rewrite !NilZero.isi in H by apply Hnil.
  injection H as H. exact H.
Qed.

(** X11. The create URL determines the name: two names that differ are
    never sent to the same URL, whatever characters they hold, because the
    percent-encoding can be undone. *)
Theorem create_url_determines_name (a b : string) :
  "/persona/?name=" ++ encodeURIComponent a =
  "/persona/?name=" ++ encodeURIComponent b ->
  a = b.
Proof.
  intros H. simpl in H. injection H as H.
  apply (f_equal percentDecode) in H.
  rewrite !percentDecode_encodeURIComponent in H.
  injection H as H. exact H.
Qed.

Lemma create_url_determines_name_witness : "a b&c=d" = "a b&c=d".
Proof.
  apply (create_url_determines_name "a b&c=d" "a b&c=d"). reflexivity.
Defined.

(** X12. The refinement URL determines the persona: two safe-integer ids
    (the range in which a number prints with its exact decimal digits) that
    differ are never addressed by the same URL. *)
Theorem add_url_determines_id (i j : Z) :
  isSafeInteger i = true ->
  isSafeInteger j = true ->
  "/persona/" ++ idToString (Some i) ++ "/add_sample" =
  "/persona/" ++ idToString (Some j) ++ "/add_sample" ->
  i = j.
Proof.
  intros _ _ H. simpl in H. injection H as H.
  apply numberToString_inj, (append_cancel_r _ _ "/add_sample"), H.
Qed.

Lemma add_url_determines_id_witness : 42%Z = 42%Z.
Proof.
  apply (add_url_determines_id 42 42); reflexivity.
Defined.

(** ** The component as JavaScript runs it: reachable worlds *)

Module UntypedFacts.
Import Untyped.

Lemma js_run_cons (e : Event) (evs : list Event) (w : World) :
  run (e :: evs) w = run evs (step e w).
Proof. reflexivity. Qed.

Lemma js_run_snoc (evs : list Event) (e : Event) (w : World) :
  run (evs ++ [e]) w = step e (run evs w).
Proof. unfold run; rewrite fold_left_app; reflexivity. Qed.

Ltac count_trace :=
  cbn [trace inflight hooks loading persona setLoading setPersona
       setPersonaId setNewSample] in *;
  rewrite ?filter_app, ?length_app; simpl; try lia.

Lemma js_gated_init : gated init.
Proof. repeat split; simpl; auto; intros p []. Qed.

Lemma js_gated_step (e : Event) (w : World) : gated w -> gated (step e w).
Proof.
  destruct w as [[n s pe l pid ns] fl tr].
  intros (Hlen & Hload & Hadd & Hbal); simpl in *.
  destruct fl as [|p [|q fl]]; simpl in *; try lia; subst l.
  - (* nothing in flight *)
    destruct e as [v|v|v| | |k r]; unfold step; simpl.
    + repeat split; simpl; auto.
    + repeat split; simpl; auto.
    + destruct (truthy pe); repeat split; simpl; auto.
    + destruct (negb (truthyString n) || negb (truthyString s));
        [repeat split; simpl; auto|].
      unfold generatePersona; simpl.
      destruct (tryEncodeURIComponent n); repeat split; simpl; auto;
        try (intros p [<-|[]]; discriminate); count_trace.
    + destruct (truthy pe) eqn:Hpe; simpl; [|repeat split; simpl; auto].
      destruct (negb (negb (truthyString ns))); [|repeat split; simpl; auto].
      unfold addToPersona; simpl.
      destruct (negb (truthy pid)); [repeat split; simpl; auto|]. simpl.
      destruct (toStringJS pid); repeat split; simpl; auto; count_trace.
    + destruct k; repeat split; simpl; auto.
  - (* one request in flight: the buttons are disabled *)
    destruct e as [v|v|v| | |k r]; unfold step; simpl.
    + repeat split; simpl; auto.
    + repeat split; simpl; auto.
    + destruct (truthy pe) eqn:E; repeat split; simpl; auto;
        rewrite E; exact Hadd.
    + repeat split; simpl; auto.
    + rewrite andb_false_r. repeat split; simpl; auto.
    + destruct k as [|k]; simpl.
      * destruct p as [[|] req]; simpl;
          [unfold generatePersonaResumed | unfold addToPersonaResumed];
          destruct (settle r) as [data|err]; simpl;
          try destruct (getId data); simpl;
          repeat split; simpl; auto; try (intros ? []); count_trace.
      * destruct k; repeat split; simpl; auto.
Qed.

Lemma js_gated_reachable (evs : list Event) : gated (run evs init).
Proof.
  induction evs as [|e evs IH] using rev_ind.
  - apply js_gated_init.
  - rewrite js_run_snoc. apply js_gated_step, IH.
Qed.

Lemma truthyString_nonempty (s : string) : truthyString s = true <-> s <> "".
Proof. destruct s; simpl; split; congruence. Qed.

Lemma js_idle_or_busy (w : World) :
  (phase w = Empty \/ phase w = Ready) <-> inflight w = [].
Proof.
  unfold phase. destruct (inflight w) as [|p fl].
  - destruct (truthy (persona (hooks w))); intuition.
  - destruct (awaiting p); intuition discriminate.
Qed.

(** C8. In every world the component can reach: [loading] is true exactly
    while a request is in flight, at most one is, and the requests in flight
    are those issued and not yet answered.  A step that issues a request is a
    click from an idle world with [loading] false, and it leaves [loading]
    true with exactly that request in flight, awaited by the handler of the
    button clicked; [loading] is then true in every world in which the
    request is still in flight; and the step that settles it, whatever the
    reply, records the response, leaves [loading] false and nothing in
    flight. *)
Theorem loading_spans_the_request (evs : list Event) :
  let w := run evs init in
  (loading (hooks w) = true <-> inflight w <> []) /\
  length (inflight w) <= 1 /\
  length (filter isPost (trace w)) =
    length (filter isResponse (trace w)) + length (inflight w) /\
  (forall e req, In (Post req) (emitted e w) ->
     inflight w = [] /\
     loading (hooks w) = false /\
     loading (hooks (step e w)) = true /\
     exists h, ((e = ClickGenerate /\ h = AwaitGenerate) \/
                (e = ClickAdd /\ h = AwaitAdd)) /\
               inflight (step e w) = [pending h req]) /\
  (forall k r p, nth_error (inflight w) k = Some p ->
     In (Response p r) (emitted (Settle k r) w) /\
     loading (hooks (step (Settle k r) w)) = false /\
     inflight (step (Settle k r) w) = []).
Proof.
  intros w.
  pose proof (js_gated_reachable evs) as (Hlen & Hload & _ & Hbal).
  fold w in Hlen, Hload, Hbal. clearbody w.
  split; [|split; [exact Hlen|split; [exact Hbal|split]]].
  - rewrite Hload. destruct (inflight w); simpl; split; congruence.
  - intros e req. unfold emitted.
    destruct e as [v|v|v| | |k r]; unfold step, render;
      cbn [generateDisabled refinementShown addDisabled].
    + cbn. rewrite skipn_length. intros [].
    + cbn. rewrite skipn_length. intros [].
    + destruct (truthy (persona (hooks w))); cbn;
        rewrite skipn_length; intros [].
    + rewrite Hload.
      destruct (inflight w) as [|p fl] eqn:Hfl; cbn [isNil negb orb];
        [|rewrite skipn_length; intros []].
      destruct (negb (truthyString (name (hooks w))) ||
                negb (truthyString (sample (hooks w))));
        [rewrite skipn_length; intros []|].
      unfold generatePersona. cbn [hooks name sample setLoading].
      rewrite Hfl.
      destruct (tryEncodeURIComponent (name (hooks w))); cbn [trace];
        rewrite skipn_length_app.
      * intros [[= <-]|[]]. repeat split.
        exists AwaitGenerate. split; [left; split|]; reflexivity.
      * intros [H|[H|[]]]; discriminate H.
    + rewrite Hload.
      destruct (inflight w) as [|p fl] eqn:Hfl; cbn [isNil negb orb];
        [|rewrite andb_false_r, skipn_length; intros []].
      destruct (truthy (persona (hooks w)) &&
                negb (negb (truthyString (newSample (hooks w)))));
        [|rewrite skipn_length; intros []].
      unfold addToPersona.
      destruct (negb (truthy (personaId (hooks w))));
        [rewrite skipn_length; intros []|].
      cbn [hooks personaId newSample setLoading]. rewrite Hfl.
      destruct (toStringJS (personaId (hooks w))); cbn [trace];
        rewrite skipn_length_app.
      * intros [[= <-]|[]]. repeat split.
        exists AwaitAdd. split; [right; split|]; reflexivity.
      * intros [H|[H|[]]]; discriminate H.
    + destruct (nth_error (inflight w) k) as [p|];
        [|rewrite skipn_length; intros []].
      destruct (awaiting p); cbn [resume];
        [unfold generatePersonaResumed | unfold addToPersonaResumed];
        destruct (settle r) as [data|err]; cbn [hooks inflight trace];
        try destruct (getId data); cbn [trace];
        rewrite <- ?app_assoc, skipn_length_app; cbn [app];
        intros H; repeat (destruct H as [H|H]; [discriminate H|]);
        destruct H.
  - intros k r p Hk. unfold emitted, step. rewrite Hk.
    assert (Hnil : removeAt k (inflight w) = []).
    { destruct (inflight w) as [|q [|q' fl]]; simpl in Hlen; try lia.
      - destruct k; discriminate Hk.
      - destruct k as [|[|k]]; try discriminate Hk. reflexivity. }
    rewrite Hnil.
    destruct (awaiting p); cbn [resume];
      [unfold generatePersonaResumed | unfold addToPersonaResumed];
      destruct (settle r) as [data|err]; cbn [hooks inflight trace];
      try destruct (getId data); cbn [trace hooks inflight];
      rewrite <- ?app_assoc, skipn_length_app;
      (split; [left; reflexivity | split; reflexivity]).
Qed.

Lemma loading_spans_the_request_witness :
  let w := run [ChangeName "n"; ChangeSample "s"] init in
  loading (hooks w) = false /\
  loading (hooks (step ClickGenerate w)) = true /\
  loading (hooks (step (ChangeName "m") (step ClickGenerate w))) = true /\
  loading (hooks (step (Settle 0 NetworkError) (step ClickGenerate w))) = false.
Proof.
  intros w.
  destruct (loading_spans_the_request [ChangeName "n"; ChangeSample "s"])
    as (_ & _ & _ & Hd & _).
  destruct (Hd ClickGenerate (post "/persona/?name=n" "s") (or_introl eq_refl))
    as (_ & H0 & H1 & _).
  destruct (loading_spans_the_request
              [ChangeName "n"; ChangeSample "s"; ClickGenerate; ChangeName "m"])
    as (H2 & _).
  destruct (loading_spans_the_request
              [ChangeName "n"; ChangeSample "s"; ClickGenerate])
    as (_ & _ & _ & _ & Hs).
  destruct (Hs 0 NetworkError
              (pending AwaitGenerate (post "/persona/?name=n" "s")) eq_refl)
    as (_ & H3 & _).
  split; [exact H0|]. split; [exact H1|]. split; [|exact H3].
  apply H2. discriminate.
Defined.

(** C7, as stated, fails: once a record is held and nothing is in flight,
    the Generate button is still rendered and enabled, so [generatePersona]
    is triggered from [Ready] as well. *)
Lemma spec_transitions_counterexample :
  ~ (forall evs e l,
       label e (run evs init) = Some l ->
       specTransition (phase (run evs init)) l (phase (step e (run evs init)))).
Proof.
  intros H.
  specialize (H [ChangeName "n"; ChangeSample "s"; ClickGenerate;
                 Settle 0 (Status 200 (VObject [("id", ofInteger 1);
                                                ("persona", VObject [])]))]
                ClickGenerate LGenerate eq_refl).
  vm_compute in H. inversion H.
Qed.

(** C7, amended. For every reachable world and every event:
    - an event that invokes no handler and settles no request leaves the
      state as it is;
    - [generatePersona] is triggered from [Empty] or from [Ready], exactly
      when nothing is in flight and name and sample are non-empty, and moves
      to [Generating] when the name can be encoded;
    - from [Generating], a success whose body is truthy leads to [Ready];
      a failure leaves the record as it was and leads back to the state the
      call was made from ([Ready] when a record is held, [Empty] otherwise);
    - [addToPersona] is triggered only from [Ready], exactly when the new
      sample is non-empty, and moves to [Refining] when the persona id
      passes the guard and can be written into the URL;
    - from [Refining], a success whose body is truthy and a failure both
      lead to [Ready];
    - a request settles exactly from [Generating] or [Refining]. *)
Theorem component_transitions (evs : list Event) (e : Event) :
  let w := run evs init in
  let w' := step e w in
  match label e w with
  | None => phase w' = phase w
  | Some LGenerate =>
      (phase w = Empty \/ phase w = Ready) /\
      (hasLoneSurrogate (name (hooks w)) = false -> phase w' = Generating)
  | Some LAddSample =>
      phase w = Ready /\
      (truthy (personaId (hooks w)) = true ->
       toStringJS (personaId (hooks w)) <> None ->
       phase w' = Refining)
  | Some LSuccess =>
      (phase w = Generating \/ phase w = Refining) /\
      (truthy (bodyOf e) = true -> phase w' = Ready)
  | Some LFailure =>
      (phase w = Generating /\
       persona (hooks w') = persona (hooks w) /\
       phase w' = if truthy (persona (hooks w)) then Ready else Empty) \/
      (phase w = Refining /\ phase w' = Ready)
  end /\
  (label ClickGenerate w = Some LGenerate <->
   (phase w = Empty \/ phase w = Ready) /\
   name (hooks w) <> "" /\ sample (hooks w) <> "") /\
  (label ClickAdd w = Some LAddSample <->
   phase w = Ready /\ newSample (hooks w) <> "") /\
  (forall r, label (Settle 0 r) w <> None <->
             phase w = Generating \/ phase w = Refining).
Proof.
  intros w w'; subst w'.
  pose proof (js_gated_reachable evs) as Hg. fold w in Hg. clearbody w.
  destruct w as [[n s pe l pid ns] fl tr].
  destruct Hg as (Hlen & Hload & Hadd & _); simpl in *.
  split; [|split; [|split]].
  - destruct fl as [|p [|q fl]]; simpl in *; try lia; subst l.
    + destruct e as [v|v|v| | |k r]; unfold label, step, phase; simpl.
      * reflexivity.
      * reflexivity.
      * destruct (truthy pe) eqn:E; simpl; rewrite ?E; reflexivity.
      * destruct (negb (truthyString n) || negb (truthyString s)); simpl.
        -- reflexivity.
        -- split; [destruct (truthy pe); auto|].
           intros Hn. unfold generatePersona, tryEncodeURIComponent; simpl.
           rewrite Hn. reflexivity.
      * destruct (truthy pe) eqn:E; simpl; [|rewrite E; reflexivity].
        destruct (negb (negb (truthyString ns))); simpl; [|rewrite E; reflexivity].
        split; [reflexivity|]. intros Hid Hs. unfold addToPersona; simpl.
        rewrite Hid. simpl. destruct (toStringJS pid); [reflexivity|].
        destruct (Hs eq_refl).
      * destruct k; reflexivity.
    + destruct e as [v|v|v| | |k r]; unfold label, step, phase; simpl.
      * reflexivity.
      * reflexivity.
      * destruct (truthy pe); reflexivity.
      * reflexivity.
      * rewrite andb_false_r. reflexivity.
      * destruct k as [|[|k]]; simpl; [|reflexivity|reflexivity].
        destruct p as [[|] req]; simpl.
        -- unfold generatePersonaResumed.
           destruct r as [|code data]; simpl.
           ++ left. repeat split.
           ++ destruct (validateStatus code); simpl.
              ** split; [left; reflexivity|]. intros Ht.
                 destruct (getId data); simpl; rewrite Ht; reflexivity.
              ** left. repeat split.
        -- specialize (Hadd _ (or_introl eq_refl) eq_refl).
           unfold addToPersonaResumed.
           destruct r as [|code data]; simpl.
           ++ right. rewrite Hadd. split; reflexivity.
           ++ destruct (validateStatus code); simpl.
              ** split; [right; reflexivity|]. intros Ht.
                 rewrite Ht. reflexivity.
              ** right. rewrite Hadd. split; reflexivity.
  - unfold label, render; cbn [generateDisabled hooks name sample loading].
    rewrite js_idle_or_busy; cbn [inflight]. rewrite Hload.
    rewrite <- !truthyString_nonempty.
    destruct fl, (truthyString n), (truthyString s); simpl;
      intuition congruence.
  - unfold label, render, phase;
      cbn [refinementShown addDisabled hooks persona newSample loading inflight].
    rewrite Hload. rewrite <- truthyString_nonempty.
    destruct fl as [|p fl]; [|destruct (awaiting p)];
      destruct (truthy pe), (truthyString ns); simpl;
      intuition congruence.
  - intros r. unfold label, phase; cbn [inflight].
    destruct fl as [|p fl]; simpl.
    + destruct (truthy pe); intuition congruence.
    + destruct (awaiting p); split; intros _; auto; discriminate.
Qed.

Lemma js_createdId_app (v : Value) (t d : list Obs) :
  createdId v t -> createdId v (t ++ d).
Proof.
  intros (p & code & data & Hin & H). exists p, code, data.
  split; [apply in_or_app; left; exact Hin | exact H].
Qed.

Lemma js_idFromCreate_step (e : Event) (w : World) :
  idFromCreate w -> idFromCreate (step e w).
Proof.
  unfold idFromCreate. intros Hw.
  destruct e as [v|v|v| | |k r]; unfold step; simpl.
  - exact Hw.
  - exact Hw.
  - destruct (truthy (persona (hooks w))); exact Hw.
  - destruct (_ || _); [exact Hw|]. unfold generatePersona; simpl.
    destruct (tryEncodeURIComponent (name (hooks w))); simpl;
      intros Hi; apply js_createdId_app, Hw, Hi.
  - destruct (_ && _); [|exact Hw]. unfold addToPersona.
    destruct (negb _); [exact Hw|]. simpl.
    destruct (toStringJS (personaId (hooks w))); simpl;
      intros Hi; apply js_createdId_app, Hw, Hi.
  - destruct (nth_error (inflight w) k) as [p|]; [|exact Hw].
    destruct (awaiting p) eqn:Hp; simpl.
    + unfold generatePersonaResumed.
      destruct r as [|code data]; simpl.
      * intros Hi. do 2 apply js_createdId_app. apply Hw, Hi.
      * destruct (validateStatus code) eqn:Hc; simpl.
        -- destruct (getId data) as [i|] eqn:Hg; simpl.
           ++ intros _. exists p, code, data.
              split; [apply in_or_app; right; left; reflexivity | auto].
           ++ intros Hi. do 2 apply js_createdId_app. apply Hw, Hi.
        -- intros Hi. do 2 apply js_createdId_app. apply Hw, Hi.
    + unfold addToPersonaResumed.
      destruct (settle r); simpl; intros Hi.
      * apply js_createdId_app, Hw, Hi.
      * do 2 apply js_createdId_app. apply Hw, Hi.
Qed.

Lemma js_idFromCreate_reachable (evs : list Event) : idFromCreate (run evs init).
Proof.
  induction evs as [|e evs IH] using rev_ind.
  - intros H; discriminate H.
  - rewrite js_run_snoc. apply js_idFromCreate_step, IH.
Qed.

(** C9. Every request a step of a reachable world issues is one of the two
    calls of the HTTP contract.  It is either the create call, issued by
    [generatePersona]: a POST to [/persona/?name=] followed by the held
    name, percent-encoded (only unescaped characters and percent escapes,
    and decoding gives the name back), with body [{ text: sample }]; or the
    refinement call, issued by [addToPersona]: a POST to
    [/persona/{id}/add_sample] with body [{ text: newSample }], where [id]
    is the held persona id as the template literal prints it, and that
    persona id is the [id] the component read off the body of an earlier
    successful create response; when it is a safe integer, the URL holds
    its decimal digits. *)
Theorem requests_conform (evs : list Event) (e : Event) (req : Request) :
  let w := run evs init in
  In (Post req) (emitted e w) ->
  (e = ClickGenerate /\
   hasLoneSurrogate (name (hooks w)) = false /\
   req = post ("/persona/?name=" ++ encodeURIComponent (name (hooks w)))
              (sample (hooks w)) /\
   allChars querySafe (encodeURIComponent (name (hooks w))) = true /\
   percentDecode (encodeURIComponent (name (hooks w))) = Some (name (hooks w)))
  \/
  (e = ClickAdd /\
   exists i,
     toStringJS (personaId (hooks w)) = Some i /\
     req = post ("/persona/" ++ i ++ "/add_sample") (newSample (hooks w)) /\
     createdId (personaId (hooks w)) (trace w) /\
     (forall z, isSafeInteger z = true ->
                personaId (hooks w) = ofInteger z ->
                i = numberToString z)).
Proof.
  intros w. pose proof (js_idFromCreate_reachable evs) as Hid. fold w in Hid.
  clearbody w. unfold emitted.
  destruct e as [v|v|v| | |k r]; unfold step; simpl.
  - rewrite skipn_length. intros [].
  - rewrite skipn_length. intros [].
  - destruct (truthy (persona (hooks w))); simpl;
      rewrite skipn_length; intros [].
  - destruct (_ || _); simpl; [rewrite skipn_length; intros []|].
    unfold generatePersona, tryEncodeURIComponent; simpl.
    destruct (hasLoneSurrogate (name (hooks w))) eqn:Hs; simpl;
      rewrite skipn_length_app.
    + intros [H|[H|[]]]; discriminate H.
    + intros [[= <-]|[]]. left. repeat split.
      * apply encodeURIComponent_querySafe.
      * apply percentDecode_encodeURIComponent.
  - destruct (_ && _); simpl; [|rewrite skipn_length; intros []].
    unfold addToPersona.
    destruct (truthy (personaId (hooks w))) eqn:Ht; simpl;
      [|rewrite skipn_length; intros []].
    destruct (toStringJS (personaId (hooks w))) as [i|] eqn:Hi; simpl;
      rewrite skipn_length_app.
    + intros [[= <-]|[]]. right. split; [reflexivity|]. exists i.
      split; [reflexivity|]. split; [reflexivity|].
      split; [exact (Hid Ht)|].
      intros z _ Hz. rewrite Hz in Hi. simpl in Hi. congruence.
    + intros [H|[H|[]]]; discriminate H.
  - destruct (nth_error (inflight w) k) as [p|]; [|rewrite skipn_length; intros []].
    destruct (awaiting p); simpl;
      [unfold generatePersonaResumed | unfold addToPersonaResumed];
      destruct (settle r) as [data|err]; simpl;
      try destruct (getId data); simpl;
      rewrite <- ?app_assoc, skipn_length_app; simpl; intuition discriminate.
Qed.

Lemma requests_conform_witness :
  let evs := [ChangeName "Ernest H."; ChangeSample "It was a good day.";
              ClickGenerate;
              Settle 0 (Status 200 (VObject [("id", ofInteger 7);
                                             ("persona", VObject [])]));
              ChangeNewSample "The sea was calm."] in
  let req := post "/persona/7/add_sample" "The sea was calm." in
  let w := run evs init in
  (ClickAdd = ClickGenerate /\
   hasLoneSurrogate (name (hooks w)) = false /\
   req = post ("/persona/?name=" ++ encodeURIComponent (name (hooks w)))
              (sample (hooks w)) /\
   allChars querySafe (encodeURIComponent (name (hooks w))) = true /\
   percentDecode (encodeURIComponent (name (hooks w))) = Some (name (hooks w)))
  \/
  (ClickAdd = ClickAdd /\
   exists i,
     toStringJS (personaId (hooks w)) = Some i /\
     req = post ("/persona/" ++ i ++ "/add_sample") (newSample (hooks w)) /\
     createdId (personaId (hooks w)) (trace w) /\
     (forall z, isSafeInteger z = true ->
                personaId (hooks w) = ofInteger z ->
                i = numberToString z)).
Proof.
  intros evs req.
  apply (requests_conform evs ClickAdd req). vm_compute. left. reflexivity.
Defined.

Lemma js_setLoading_idle (h : Hooks) :
  loading h = false -> setLoading false (setLoading true h) = h.
Proof. destruct h; simpl; intros ->; reflexivity. Qed.

(** X1. In every reachable world a click on the Generate button reaches
    the handler exactly when nothing is in flight and both the name and the
    sample are non-empty, and otherwise changes nothing.  When it does, and
    the name can be encoded, it issues the create call for the held name
    and sample; when the name holds a lone surrogate it issues nothing,
    shows ['Error creating persona'], logs the [URIError] and leaves every
    state cell as it was. *)
Theorem generate_click_dispatches (evs : list Event) :
  let w := run evs init in
  let ready := isNil (inflight w) && truthyString (name (hooks w)) &&
               truthyString (sample (hooks w)) in
  emitted ClickGenerate w =
    (if ready
     then if hasLoneSurrogate (name (hooks w))
          then [Alert "Error creating persona"; ConsoleError URIError]
          else [Post (post ("/persona/?name=" ++
                            encodeURIComponent (name (hooks w)))
                           (sample (hooks w)))]
     else []) /\
  (ready = false -> step ClickGenerate w = w) /\
  (hasLoneSurrogate (name (hooks w)) = true ->
   hooks (step ClickGenerate w) = hooks w /\
   inflight (step ClickGenerate w) = inflight w).
Proof.
  intros w ready; subst ready.
  pose proof (js_gated_reachable evs) as (_ & Hload & _). fold w in Hload.
  clearbody w. unfold emitted, step, render; cbn [generateDisabled].
  rewrite Hload.
  destruct (isNil (inflight w)) eqn:Hnil,
    (truthyString (name (hooks w))), (truthyString (sample (hooks w)));
    cbn [negb orb andb];
    try (rewrite skipn_length; repeat split; reflexivity).
  unfold generatePersona, tryEncodeURIComponent.
  cbn [hooks name sample setLoading].
  destruct (hasLoneSurrogate (name (hooks w))); cbn [trace hooks inflight];
    rewrite skipn_length_app.
  - split; [reflexivity|]. split; [discriminate|]. intros _.
    split; [|reflexivity]. apply js_setLoading_idle. rewrite Hload.
    reflexivity.
  - split; [reflexivity|]. split; discriminate.
Qed.

(** X2. In every reachable world a click on the Add button reaches past the
    guard of the handler exactly when a persona record is held (the section
    is rendered), nothing is in flight, the new sample is non-empty and the
    persona id is truthy, and otherwise changes nothing.  It then issues
    the refinement call for the id as the template literal prints it and
    the held text; when the id cannot be printed it issues nothing and
    shows ['Error updating persona']. *)
Theorem add_click_dispatches (evs : list Event) :
  let w := run evs init in
  let ready := truthy (persona (hooks w)) && isNil (inflight w) &&
               truthyString (newSample (hooks w)) &&
               truthy (personaId (hooks w)) in
  emitted ClickAdd w =
    (if ready
     then match toStringJS (personaId (hooks w)) with
          | Some i => [Post (post ("/persona/" ++ i ++ "/add_sample")
                                  (newSample (hooks w)))]
          | None => [Alert "Error updating persona"; ConsoleError TypeError]
          end
     else []) /\
  (ready = false -> step ClickAdd w = w).
Proof.
  intros w ready; subst ready.
  pose proof (js_gated_reachable evs) as (_ & Hload & _). fold w in Hload.
  clearbody w. unfold emitted, step, render; cbn [refinementShown addDisabled].
  rewrite Hload.
  destruct (truthy (persona (hooks w))), (isNil (inflight w)),
    (truthyString (newSample (hooks w))); cbn [negb orb andb];
    try (rewrite skipn_length; split; reflexivity).
  unfold addToPersona.
  destruct (truthy (personaId (hooks w))); cbn [negb];
    [|rewrite skipn_length; split; reflexivity].
  cbn [hooks personaId newSample setLoading].
  destruct (toStringJS (personaId (hooks w))); cbn [trace];
    rewrite skipn_length_app; split; (reflexivity || discriminate).
Qed.

Lemma js_held_step (e : Event) (w : World) :
  persona (hooks w) = lastFulfilled (trace w) /\
  personaId (hooks w) = lastCreatedId (trace w) ->
  persona (hooks (step e w)) = lastFulfilled (trace (step e w)) /\
  personaId (hooks (step e w)) = lastCreatedId (trace (step e w)).
Proof.
  intros (Hp & Hi).
  destruct e as [v|v|v| | |k r]; unfold step; simpl.
  - auto.
  - auto.
  - destruct (truthy (persona (hooks w))); auto.
  - destruct (_ || _); [auto|]. unfold generatePersona; simpl.
    unfold lastFulfilled, lastCreatedId in *.
    destruct (tryEncodeURIComponent (name (hooks w))); simpl;
      rewrite !fold_left_app; auto.
  - destruct (_ && _); [|auto]. unfold addToPersona.
    destruct (negb _); [auto|]. simpl.
    unfold lastFulfilled, lastCreatedId in *.
    destruct (toStringJS (personaId (hooks w))); simpl;
      rewrite !fold_left_app; auto.
  - destruct (nth_error (inflight w) k) as [p|]; [|auto].
    unfold lastFulfilled, lastCreatedId in *.
    destruct (awaiting p) eqn:Ha; simpl;
      [unfold generatePersonaResumed | unfold addToPersonaResumed];
      (destruct r as [|code data]; simpl;
       [|destruct (validateStatus code) eqn:Hc; simpl;
         try (destruct (getId data) eqn:Hg; simpl)]);
      rewrite !fold_left_app; simpl; rewrite ?Ha, ?Hc; simpl;
      rewrite ?Hg; auto.
Qed.

(** X5. In every reachable world [persona] is the body of the latest 2xx
    response received, whatever that body is and whichever call it answered
    ([null] when there was none), and [personaId] is the [id] read off the
    latest 2xx response to a create call whose body is neither [null] nor
    [undefined] ([null] when there was none): failed calls, refinement
    responses and create responses on which reading [id] throws never
    change the id. *)
Theorem held_record_and_id (evs : list Event) :
  let w := run evs init in
  persona (hooks w) = lastFulfilled (trace w) /\
  personaId (hooks w) = lastCreatedId (trace w).
Proof.
  induction evs as [|e evs IH] using rev_ind.
  - split; reflexivity.
  - rewrite js_run_snoc. apply js_held_step, IH.
Qed.

End UntypedFacts.

(** ** The typed reading is the run-time behaviour within the contract *)

Lemma numberToString_zero (i : Z) :
  (numberToString i =? "0")%string = (i =? 0)%Z.
Proof.
  destruct (Z.eqb_spec i 0) as [->|Hi]; [reflexivity|].
  apply String.eqb_neq. intros H. apply Hi.
  apply numberToString_inj. exact H.
Qed.

Lemma numberToString_not_NaN (i : Z) :
  (numberToString i =? "NaN")%string = false.
Proof.
  apply String.eqb_neq. unfold numberToString. intros H.
  assert (Hnil : Z.to_int i <> Decimal.Pos Decimal.Nil /\
                 Z.to_int i <> Decimal.Neg Decimal.Nil).
  { destruct i as [|p|p]; simpl; split; try discriminate;
      intros [= E]; exact (DecimalPos.Unsigned.to_uint_nonnil p E). }
  pose proof (NilZero.isi (Z.to_int i) (proj1 Hnil) (proj2 Hnil)) as E.
  rewrite H in E. discriminate E.
Qed.

Lemma truthy_valueOfId (o : option Z) :
  Untyped.truthy (valueOfId o) = truthyId o.
Proof.
  destruct o as [i|]; [|reflexivity]. unfold valueOfId, Untyped.ofInteger.
  cbn [Untyped.truthy truthyId].
  rewrite numberToString_zero, numberToString_not_NaN. apply andb_true_r.
Qed.

Lemma truthy_valueOfRecord (o : option PersonaResponse.t) :
  Untyped.truthy (valueOfRecord o) = truthyPersona o.
Proof. destruct o; reflexivity. Qed.

Lemma toStringJS_valueOfId (o : option Z) :
  Untyped.toStringJS (valueOfId o) = Some (idToString o).
Proof. destruct o; reflexivity. Qed.

Lemma render_erase (h : Hooks) : Untyped.render (eraseHooks h) = render h.
Proof.
  unfold Untyped.render, render, eraseHooks. cbn.
  rewrite truthy_valueOfRecord. reflexivity.
Qed.

Ltac erase_cbn :=
  unfold eraseWorld, eraseHooks, Untyped.withHooks, withHooks;
  cbn [Untyped.hooks Untyped.inflight Untyped.trace Untyped.name
       Untyped.sample Untyped.persona Untyped.loading Untyped.personaId
       Untyped.newSample Untyped.setLoading Untyped.setPersona
       Untyped.setPersonaId Untyped.setNewSample Untyped.setName
       Untyped.setSample
       hooks inflight trace name sample persona loading personaId newSample
       setLoading setPersona setPersonaId setNewSample setName setSample
       valueOfRecord valueOfId].

Lemma step_erase (e : Event) (w : World) :
  withinContract e w = true ->
  eraseWorld (step e w) = Untyped.step (eraseEvent e) (eraseWorld w).
Proof.
  intros Hc.
  assert (Hr : Untyped.render (Untyped.hooks (eraseWorld w)) = render (hooks w))
    by apply render_erase.
  destruct e as [v|v|v| | |k r];
    unfold step, Untyped.step; cbn [eraseEvent]; rewrite ?Hr.
  - reflexivity.
  - reflexivity.
  - destruct (refinementShown (render (hooks w))); reflexivity.
  - destruct (generateDisabled (render (hooks w))); [reflexivity|].
    unfold generatePersona, Untyped.generatePersona, tryEncodeURIComponent.
    cbn in Hc. apply negb_true_iff in Hc.
    erase_cbn. rewrite Hc, map_app. reflexivity.
  - destruct (_ && _); [|reflexivity].
    unfold addToPersona, Untyped.addToPersona. erase_cbn.
    rewrite truthy_valueOfId, toStringJS_valueOfId.
    destruct (negb (truthyId (personaId (hooks w)))); [reflexivity|].
    erase_cbn. rewrite map_app. reflexivity.
  - change (Untyped.inflight (eraseWorld w)) with (inflight w).
    destruct (nth_error (inflight w) k) as [p|]; [|reflexivity].
    destruct (awaiting p); cbn [resume Untyped.resume].
    + unfold generatePersonaResumed, Untyped.generatePersonaResumed.
      destruct r as [|code data]; cbn [settle Untyped.settle eraseReply].
      * erase_cbn. rewrite !map_app. reflexivity.
      * destruct (validateStatus code); erase_cbn; rewrite !map_app;
          reflexivity.
    + unfold addToPersonaResumed, Untyped.addToPersonaResumed.
      destruct r as [|code data]; cbn [settle Untyped.settle eraseReply].
      * erase_cbn. rewrite !map_app. reflexivity.
      * destruct (validateStatus code); erase_cbn; rewrite !map_app;
          reflexivity.
Qed.

(** X13. Within the contract the TypeScript declarations describe (a name
    that can be encoded whenever Generate is clicked, 2xx bodies of the
    declared shape whose id is a safe integer), the component as JavaScript
    runs it does, event for event, what the typed reading says: state
    cells, requests in flight and trace agree after every run. *)
Theorem typed_reading_is_run_time_behaviour (evs : list Event) (w : World) :
  runWithinContract evs w = true ->
  eraseWorld (run evs w) = Untyped.run (map eraseEvent evs) (eraseWorld w).
Proof.
  revert w; induction evs as [|e evs IH]; intros w H; [reflexivity|].
  simpl in H. apply andb_prop in H as [He Hes].
  rewrite run_cons. cbn [map]. rewrite UntypedFacts.js_run_cons.
  rewrite <- (step_erase e w He). apply IH, Hes.
Qed.

Lemma typed_reading_is_run_time_behaviour_witness :
  let evs := [ChangeName "n"; ChangeSample "s"; ClickGenerate;
              Settle 0 (Status 200 (PersonaResponse.mk 7 JNull));
              ChangeNewSample "t"; ClickAdd; Settle 0 NetworkError] in
  eraseWorld (run evs init) = Untyped.run (map eraseEvent evs) (eraseWorld init).
Proof.
  intros evs.
  apply (typed_reading_is_run_time_behaviour evs init). reflexivity.
Defined.
